(** * The prediction pipeline of the MCP prediction server

    A shallow embedding of the Python sources under [server/]:
    - [domain/exceptions.py], [domain/entities.py], [domain/interfaces.py];
    - [application/services.py] (the orchestrator [PredictionServiceImpl]);
    - [infrastructure/processors.py] (the default pre- and postprocessor);
    - [interface/schemas.py], [interface/controllers.py] and the [/predict]
      route of [main.py] (the HTTP boundary).

    Python values are an inductive type, a [float] is an IEEE 754 binary64
    number in the representation of [SpecFloat], exceptions are records
    with a kind, and code that calls the injected collaborators runs in a
    small state-and-exception monad that also records every call made.
    What is raised is kept in two sorts: the exceptions that derive from
    [Exception], which an [except Exception] clause catches, and those that
    derive from [BaseException] only ([KeyboardInterrupt], [SystemExit],
    ...), which pass every handler of the program.
    The calls to [self._logger] are left out: they return [None], and
    their arguments ([len] of a [dict], the text of an exception) are
    computed without failure. *)

From Stdlib Require Import ZArith List String Ascii Bool Lia.
From Stdlib Require Import Floats.
Import ListNotations.

Set Warnings "-register-all".

Local Open Scope Z_scope.
Local Open Scope string_scope.
Local Open Scope list_scope.

(** ** Python floats *)

Module PyFloat.

(** A Python [float] is a binary64 number: 53 bits of precision,
    exponents up to 1024. *)
Definition prec : Z := 53.
Definition emax : Z := 1024.

Definition float : Type := spec_float.

(** The literals the sources and the scenarios write. *)
Definition f0_0 : float := S754_zero false.
Definition f1_0 : float := S754_finite false 4503599627370496 (-52).
Definition f0_8 : float := S754_finite false 7205759403792794 (-53).
Definition f1_5 : float := S754_finite false 6755399441055744 (-52).
Definition neg_f0_1 : float := S754_finite true 7205759403792794 (-56).

(** [x <= y] and [x < y] on floats; both are [False] on a NaN. *)
Definition le (x y : float) : bool := SFleb x y.
Definition lt (x y : float) : bool := SFltb x y.

(** [float(n)] for an [int]: round to nearest, ties to even; CPython
    raises [OverflowError] when the result is not finite.  [None] stands
    for that overflow. *)
Definition of_int (n : Z) : option float :=
  match binary_normalize prec emax n 0 false with
  | S754_infinity _ => None
  | f => Some f
  end.

End PyFloat.

(** ** Python values *)

Inductive pyval : Type :=
| PNone
| PBool (b : bool)
| PInt (n : Z)
| PFloat (f : PyFloat.float)
| PStr (s : string)
| PList (l : list pyval)
| PTuple (l : list pyval)
| PDict (d : list (string * pyval))
| PObject (repr : string).

(** A [dict] with [str] keys: the items in insertion order.  Every
    operation below keeps the keys distinct. *)
Definition pydict : Type := list (string * pyval).

Module Dict.
Section Ops.
Context {V : Type}.

(** [d.get(k)] *)
Fixpoint get (k : string) (d : list (string * V)) : option V :=
  match d with
  | [] => None
  | (k', v) :: rest => if String.eqb k k' then Some v else get k rest
  end.

(** [k in d] *)
Definition mem (k : string) (d : list (string * V)) : bool :=
  match get k d with Some _ => true | None => false end.

(** [d[k] = v]: an existing key keeps its position, a new key goes
    last. *)
Fixpoint set (k : string) (v : V) (d : list (string * V))
  : list (string * V) :=
  match d with
  | [] => [(k, v)]
  | (k', v') :: rest =>
      if String.eqb k k' then (k', v) :: rest
      else (k', v') :: set k v rest
  end.

(** [not d] *)
Definition is_empty (d : list (string * V)) : bool :=
  match d with [] => true | _ :: _ => false end.
End Ops.
End Dict.

(** [s.lower()] for a [str] of ASCII characters: the letters [A]-[Z]
    become [a]-[z].  A character outside the ASCII range is kept as it is,
    which is not what Python does with it ([str.lower] follows Unicode):
    what is stated about values that went through [lower] is stated for
    ASCII strings, see [ascii_only]. *)
Definition lower_ascii (c : ascii) : ascii :=
  let n := nat_of_ascii c in
  if (Nat.leb 65 n && Nat.leb n 90)%bool then ascii_of_nat (n + 32) else c.

Fixpoint lower (s : string) : string :=
  match s with
  | EmptyString => EmptyString
  | String c rest => String (lower_ascii c) (lower rest)
  end.

(** ** domain/exceptions.py *)

(** The classes of exception deriving from [Exception] that the program
    raises or meets; the six named domain kinds derive from
    [DomainException] and from nothing else, so an [except K] clause on a
    domain kind [K] selects exactly the exceptions of kind [K]. *)
Inductive exc_kind : Type :=
| DomainException
| ModelPredictionError
| PreprocessingError
| PostprocessingError
| PredictionServiceError
| InvalidFeatureError
| ModelNotLoadedError
| ValueError
| OverflowError
| OtherException (class_name : string).

Definition exc_kind_eqb (a b : exc_kind) : bool :=
  match a, b with
  | DomainException, DomainException
  | ModelPredictionError, ModelPredictionError
  | PreprocessingError, PreprocessingError
  | PostprocessingError, PostprocessingError
  | PredictionServiceError, PredictionServiceError
  | InvalidFeatureError, InvalidFeatureError
  | ModelNotLoadedError, ModelNotLoadedError
  | ValueError, ValueError
  | OverflowError, OverflowError => true
  | OtherException x, OtherException y => String.eqb x y
  | _, _ => false
  end.

(** [e.__class__.__name__] *)
Definition class_name_of (k : exc_kind) : string :=
  match k with
  | DomainException => "DomainException"
  | ModelPredictionError => "ModelPredictionError"
  | PreprocessingError => "PreprocessingError"
  | PostprocessingError => "PostprocessingError"
  | PredictionServiceError => "PredictionServiceError"
  | InvalidFeatureError => "InvalidFeatureError"
  | ModelNotLoadedError => "ModelNotLoadedError"
  | ValueError => "ValueError"
  | OverflowError => "OverflowError"
  | OtherException n => n
  end.

(** An exception object.  [DomainException.__init__(message, details=None)]
    stores both fields and passes [message] to [Exception.__init__]; a
    builtin exception has its text in [message] and no details. *)
Record exn : Type := mkExn {
  kind : exc_kind;
  message : string;
  details : option string
}.

(** [str(e)]: the single argument given to [Exception.__init__]. *)
Definition str_exn (e : exn) : string := message e.

(** [isinstance(e, (K1, ..., Kn))] for leaf classes [K1 ... Kn]. *)
Definition isinstance (e : exn) (ks : list exc_kind) : bool :=
  existsb (exc_kind_eqb (kind e)) ks.

(** The classes that derive from [BaseException] and not from
    [Exception]: no [except Exception] clause catches their instances. *)
Inductive base_kind : Type :=
| KeyboardInterrupt
| SystemExit
| GeneratorExit
| CancelledError
| OtherBaseException (class_name : string).

Record base_exn : Type := mkBaseExn {
  base_class : base_kind;
  base_text : string
}.

(** A call either returns a value, raises an exception that derives from
    [Exception], or raises one that does not. *)
Inductive result (A : Type) : Type :=
| Ok (a : A)
| Raise (e : exn)
| RaiseBase (b : base_exn).
Arguments Ok {A} a.
Arguments Raise {A} e.
Arguments RaiseBase {A} b.

(** ** domain/entities.py *)

Module PredictionRequest.
Record t : Type := mk { features : pydict }.

(** The dataclass constructor followed by [__post_init__]. *)
Definition new (features : pydict) : result t :=
  if Dict.is_empty features
  then Raise (mkExn ValueError "Features dictionary cannot be empty" None)
  else Ok (mk features).
End PredictionRequest.

Module PredictionResponse.
Record t : Type := mk {
  prediction : pyval;
  confidence : PyFloat.float;
  model_version : string
}.

(** The dataclass constructor followed by [__post_init__]:
    [if not 0.0 <= confidence <= 1.0] then [if not model_version]. *)
Definition new (prediction : pyval) (confidence : PyFloat.float)
           (model_version : string) : result t :=
  if negb (PyFloat.le PyFloat.f0_0 confidence
           && PyFloat.le confidence PyFloat.f1_0)
  then Raise (mkExn ValueError "Confidence must be between 0.0 and 1.0" None)
  else if String.eqb model_version ""
  then Raise (mkExn ValueError "Model version cannot be empty" None)
  else Ok (mk prediction confidence model_version).
End PredictionResponse.

(** ** Sequencing calls that may raise *)

Definition result_bind {A B : Type} (r : result A) (k : A -> result B)
  : result B :=
  match r with
  | Ok a => k a
  | Raise e => Raise e
  | RaiseBase b => RaiseBase b
  end.

(** [try: body  except Exception as e: handler(e)] for code without
    collaborators.  Every kind of [exc_kind] derives from [Exception];
    what derives from [BaseException] only is not caught. *)
Definition try_except {A : Type} (body : result A) (handler : exn -> result A)
  : result A :=
  match body with
  | Ok a => Ok a
  | Raise e => handler e
  | RaiseBase b => RaiseBase b
  end.

Declare Scope result_scope.
Delimit Scope result_scope with result.
Notation "'let*' x ':=' r 'in' k" := (result_bind r (fun x => k))
  (at level 10, x name, r at level 100, k at level 200) : result_scope.

(** ** infrastructure/processors.py *)

(** [float(b)] for a [bool]. *)
Definition float_of_bool (b : bool) : PyFloat.float :=
  if b then PyFloat.f1_0 else PyFloat.f0_0.

(** [float(n)] for an [int]. *)
Definition float_of_int (n : Z) : result PyFloat.float :=
  match PyFloat.of_int n with
  | Some f => Ok f
  | None => Raise (mkExn OverflowError "int too large to convert to float" None)
  end.

(** [float(v)] where [isinstance(v, (int, float))] holds, [None] where it
    does not.  [bool] is a subclass of [int]. *)
Definition float_of_number (v : pyval) : option (result PyFloat.float) :=
  match v with
  | PBool b => Some (Ok (float_of_bool b))
  | PInt n => Some (float_of_int n)
  | PFloat f => Some (Ok f)
  | _ => None
  end.

(** [[float(x) for x in value if isinstance(x, (int, float))]] *)
Fixpoint float_items (value : list pyval) : result (list pyval) :=
  match value with
  | [] => Ok []
  | x :: rest =>
      match float_of_number x with
      | Some r =>
          (let* f := r in
           let* fs := float_items rest in
           Ok (PFloat f :: fs))%result
      | None => float_items rest
      end
  end.

Module DefaultPreprocessor.

Record t : Type := mk { _feature_mapping : list (string * string) }.

(** [self._feature_mapping = feature_mapping or {}] *)
Definition init (feature_mapping : option (list (string * string))) : t :=
  mk match feature_mapping with
     | Some m => m
     | None => []
     end.

Definition required_features : list string := ["product_id"].

(** The loop of [_validate_features] over the required features. *)
Fixpoint validate_required (required : list string) (features : pydict)
  : result unit :=
  match required with
  | [] => Ok tt
  | feature :: rest =>
      if negb (Dict.mem feature features)
      then Raise (mkExn PreprocessingError
                        ("Required feature missing: " ++ feature) None)
      else
        match Dict.get feature features with
        | Some PNone =>
            Raise (mkExn PreprocessingError
                         ("Feature cannot be null: " ++ feature) None)
        | _ => validate_required rest features
        end
  end.

Definition _validate_features (self : t) (features : pydict) : result unit :=
  validate_required required_features features.

(** The loop of [_apply_feature_mapping]:
    [mapped[self._feature_mapping.get(name, name)] = value]. *)
Fixpoint map_names (mapping : list (string * string)) (items : pydict)
         (mapped : pydict) : pydict :=
  match items with
  | [] => mapped
  | (original_name, value) :: rest =>
      let mapped_name :=
        match Dict.get original_name mapping with
        | Some n => n
        | None => original_name
        end in
      map_names mapping rest (Dict.set mapped_name value mapped)
  end.

Definition _apply_feature_mapping (self : t) (features : pydict) : pydict :=
  if Dict.is_empty (_feature_mapping self) then features
  else map_names (_feature_mapping self) features [].

(** One turn of the loop of [_normalize_features]: the new value of a
    feature. *)
Definition normalize_value (value : pyval) : result pyval :=
  match float_of_number value with
  | Some r => (let* f := r in Ok (PFloat f))%result
  | None =>
      match value with
      | PStr s => Ok (PStr (lower s))
      | PList l => (let* fs := float_items l in Ok (PList fs))%result
      | _ => Ok value
      end
  end.

Fixpoint normalize_items (items : pydict) (normalized : pydict)
  : result pydict :=
  match items with
  | [] => Ok normalized
  | (feature_name, value) :: rest =>
      (let* v := normalize_value value in
       normalize_items rest (Dict.set feature_name v normalized))%result
  end.

Definition _normalize_features (self : t) (features : pydict)
  : result pydict :=
  normalize_items features [].

Definition transform (self : t) (features : pydict) : result pyval :=
  try_except
    (let* _ := _validate_features self features in
     let mapped_features := _apply_feature_mapping self features in
     let* processed_features := _normalize_features self mapped_features in
     Ok (PDict processed_features))%result
    (fun e =>
       Raise (mkExn PreprocessingError "Failed to preprocess input features"
                    (Some (str_exn e)))).

End DefaultPreprocessor.

Module DefaultPostprocessor.

Record t : Type := mk { _output_format : string }.

(** [output_format: str = "json"] *)
Definition init (output_format : option string) : t :=
  mk match output_format with
     | Some f => f
     | None => "json"
     end.

Definition _validate_output (self : t) (output : pyval) : result unit :=
  match output with
  | PNone => Raise (mkExn PostprocessingError "Model output cannot be null" None)
  | _ => Ok tt
  end.

(** The branches of the source, in its order: [dict], [list] or [tuple],
    [int] or [float] (to which [bool] belongs), and for the rest
    [str(output)], which is [output] for a [str], the text of an object
    of another class, and ["None"] for [None]. *)
Definition _format_output (self : t) (output : pyval) : result pydict :=
  match output with
  | PDict d => Ok d
  | PList l | PTuple l => Ok [("forecast", PList l)]
  | PBool b => Ok [("prediction", PFloat (float_of_bool b))]
  | PInt n => (let* f := float_of_int n in Ok [("prediction", PFloat f)])%result
  | PFloat f => Ok [("prediction", PFloat f)]
  | PStr s => Ok [("result", PStr s)]
  | PObject repr => Ok [("result", PStr repr)]
  | PNone => Ok [("result", PStr "None")]
  end.

(** [enriched = formatted_output.copy(); enriched["format"] = ...] *)
Definition _enrich_output (self : t) (formatted_output : pydict) : pydict :=
  Dict.set "format" (PStr (_output_format self)) formatted_output.

Definition transform (self : t) (raw_output : pyval) : result pyval :=
  try_except
    (let* _ := _validate_output self raw_output in
     let* formatted_output := _format_output self raw_output in
     let enriched_output := _enrich_output self formatted_output in
     Ok (PDict enriched_output))%result
    (fun e =>
       Raise (mkExn PostprocessingError "Failed to postprocess model output"
                    (Some (str_exn e)))).

End DefaultPostprocessor.

(** ** Calls to the injected collaborators *)

(** The calls a request can cause, as they are recorded. *)
Inductive call : Type :=
| CallPreprocessorTransform
| CallModelPredict
| CallModelVersion
| CallPostprocessorTransform
| CallServicePredict.

Section Collaborators.

(** Whatever the collaborators keep between calls (a lazily loaded model,
    counters, ...).  A call may change it whether it returns or raises. *)
Variable W : Type.

Record state : Type := mkState {
  world : W;
  calls : list call
}.

(** Code that runs against the collaborators. *)
Definition M (A : Type) : Type := state -> result A * state.

Definition ret {A : Type} (a : A) : M A := fun s => (Ok a, s).

Definition raise {A : Type} (e : exn) : M A := fun s => (Raise e, s).

Definition bind {A B : Type} (m : M A) (k : A -> M B) : M B :=
  fun s =>
    match m s with
    | (Ok a, s') => k a s'
    | (Raise e, s') => (Raise e, s')
    | (RaiseBase b, s') => (RaiseBase b, s')
    end.

(** A pure step, such as building an entity. *)
Definition lift {A : Type} (r : result A) : M A := fun s => (r, s).

(** [try: body  except Exception as e: handler(e)]; an exception that
    does not derive from [Exception] is not caught. *)
Definition try_catch {A : Type} (body : M A) (handler : exn -> M A) : M A :=
  fun s =>
    match body s with
    | (Ok a, s') => (Ok a, s')
    | (Raise e, s') => handler e s'
    | (RaiseBase b, s') => (RaiseBase b, s')
    end.

(** A method of a collaborator, acting on [W]. *)
Definition method (A : Type) : Type := W -> result A * W.

(** Call a method: the call is recorded, then the method runs. *)
Definition invoke {A : Type} (c : call) (f : method A) : M A :=
  fun s =>
    let (r, w) := f (world s) in
    (r, mkState w (calls s ++ [c])).

(** Run code of a collaborator that itself runs in [M], recording the
    call first. *)
Definition recorded {A : Type} (c : call) (m : M A) : M A :=
  fun s => m (mkState (world s) (calls s ++ [c])).

(** domain/interfaces.py *)
Record MLModel : Type := {
  model_predict : pyval -> method pyval;
  model_version : method string
}.

Record Preprocessor : Type := {
  preprocessor_transform : pydict -> method pyval
}.

Record Postprocessor : Type := {
  postprocessor_transform : pyval -> method pyval
}.

End Collaborators.

Arguments mkState {W} world calls.
Arguments world {W} s.
Arguments calls {W} s.
Arguments ret {W A} a s.
Arguments raise {W A} e s.
Arguments bind {W A B} m k s.
Arguments lift {W A} r s.
Arguments try_catch {W A} body handler s.
Arguments invoke {W A} c f s.
Arguments recorded {W A} c m s.
Arguments model_predict {W} m input_data w.
Arguments model_version {W} m w.
Arguments preprocessor_transform {W} p features w.
Arguments postprocessor_transform {W} p raw_output w.

Declare Scope pipeline_scope.
Delimit Scope pipeline_scope with pipeline.
Notation "x <- m ;; k" := (bind m (fun x => k))
  (at level 61, m at next level, right associativity) : pipeline_scope.

(** A collaborator without state of its own. *)
Definition stateless {W A : Type} (r : result A) : method W A :=
  fun w => (r, w).

(** ** application/services.py *)

Module PredictionServiceImpl.

Record t (W : Type) : Type := mk {
  _model : MLModel W;
  _preprocessor : Preprocessor W;
  _postprocessor : Postprocessor W
}.
Arguments mk {W} _ _ _.
Arguments _model {W} _.
Arguments _preprocessor {W} _.
Arguments _postprocessor {W} _.

(** The placeholder of the source: [return 0.8]. *)
Definition _calculate_confidence (raw_prediction processed_output : pyval)
  : PyFloat.float :=
  PyFloat.f0_8.

(** [except (PreprocessingError, ModelPredictionError, PostprocessingError)] *)
Definition step_errors : list exc_kind :=
  [PreprocessingError; ModelPredictionError; PostprocessingError].

(** The three handlers of the steps: a new exception of the step's kind,
    with the text of the one caught as its details. *)
Definition preprocessing_failed (e : exn) : exn :=
  mkExn PreprocessingError "Failed to preprocess input features"
        (Some (str_exn e)).

Definition prediction_failed (e : exn) : exn :=
  mkExn ModelPredictionError "Failed to execute model prediction"
        (Some (str_exn e)).

Definition postprocessing_failed (e : exn) : exn :=
  mkExn PostprocessingError "Failed to postprocess model output"
        (Some (str_exn e)).

(** The body of the outer [try] block of [predict]. *)
Definition predict_body {W : Type} (self : t W) (request : PredictionRequest.t)
  : M W PredictionResponse.t :=
  (processed_input <-
     try_catch
       (invoke CallPreprocessorTransform
          (preprocessor_transform (_preprocessor self)
             (PredictionRequest.features request)))
       (fun e => raise (preprocessing_failed e)) ;;
   inference <-
     try_catch
       (raw_prediction <-
          invoke CallModelPredict
            (model_predict (_model self) processed_input) ;;
        model_version <-
          invoke CallModelVersion (model_version (_model self)) ;;
        ret (raw_prediction, model_version))
       (fun e => raise (prediction_failed e)) ;;
   processed_output <-
     try_catch
       (invoke CallPostprocessorTransform
          (postprocessor_transform (_postprocessor self) (fst inference)))
       (fun e => raise (postprocessing_failed e)) ;;
   let confidence :=
     _calculate_confidence (fst inference) processed_output in
   response <-
     lift (PredictionResponse.new processed_output confidence
             (snd inference)) ;;
   ret response)%pipeline.

(** The two [except] clauses of the outer [try] block. *)
Definition predict_except {W : Type} (e : exn) : M W PredictionResponse.t :=
  if isinstance e step_errors then raise e
  else raise (mkExn PredictionServiceError
                    "Unexpected error during prediction"
                    (Some (str_exn e))).

Definition predict {W : Type} (self : t W) (request : PredictionRequest.t)
  : M W PredictionResponse.t :=
  try_catch (predict_body self request) predict_except.

End PredictionServiceImpl.

(** ** interface/schemas.py *)

Module PredictionRequestSchema.

Record t : Type := mk { features : pydict }.

(** [@validator("features")] *)
Definition validate_features_not_empty (v : pydict) : result pydict :=
  if Dict.is_empty v
  then Raise (mkExn ValueError "Features dictionary cannot be empty" None)
  else Ok v.

(** Building the model runs the validator of its field; what the
    validator raises makes the construction fail. *)
Definition new (features : pydict) : result t :=
  (let* v := validate_features_not_empty features in Ok (mk v))%result.

End PredictionRequestSchema.

Module PredictionResponseSchema.

Record t : Type := mk {
  prediction : pyval;
  confidence : PyFloat.float;
  model_version : string
}.

(** [confidence: float = Field(..., ge=0.0, le=1.0)]; the other two
    fields accept what the entity holds. *)
Definition new (prediction : pyval) (confidence : PyFloat.float)
           (model_version : string) : result t :=
  if PyFloat.le PyFloat.f0_0 confidence && PyFloat.le confidence PyFloat.f1_0
  then Ok (mk prediction confidence model_version)
  else Raise (mkExn (OtherException "ValidationError")
                    "1 validation error for PredictionResponseSchema" None).

End PredictionResponseSchema.

(** ** interface/controllers.py *)

(** [fastapi.HTTPException(status_code=..., detail=...)] *)
Record HTTPException : Type := mkHTTPException {
  status_code : Z;
  detail : pydict
}.

(** What a request handler does: return a body, raise [HTTPException],
    or let an exception through that none of its clauses catches. *)
Inductive handled (A : Type) : Type :=
| Returned (a : A)
| Raised (h : HTTPException)
| Escaped (b : base_exn).
Arguments Returned {A} a.
Arguments Raised {A} h.
Arguments Escaped {A} b.

Module MCPPredictController.

(** The controller holds a [PredictionService]: any implementation of
    [predict]. *)
Record t (W : Type) : Type := mk {
  _prediction_service : PredictionRequest.t -> M W PredictionResponse.t
}.
Arguments mk {W} _.
Arguments _prediction_service {W} _ _ _.

Definition _format_error_response (exception : exn) : pydict :=
  [("error", PStr (class_name_of (kind exception)));
   ("message", PStr (message exception));
   ("details", match details exception with
               | Some d => PStr d
               | None => PNone
               end)].

(** The body of the [try] block of [post_predict]. *)
Definition post_predict_body {W : Type} (self : t W)
           (request : PredictionRequestSchema.t)
  : M W PredictionResponseSchema.t :=
  (domain_request <-
     lift (PredictionRequest.new (PredictionRequestSchema.features request)) ;;
   domain_response <-
     recorded CallServicePredict
       (_prediction_service self domain_request) ;;
   response <-
     lift (PredictionResponseSchema.new
             (PredictionResponse.prediction domain_response)
             (PredictionResponse.confidence domain_response)
             (PredictionResponse.model_version domain_response)) ;;
   ret response)%pipeline.

(** The [except] clauses of [post_predict], tried in the order of the
    source; each raises an [HTTPException]. *)
Definition post_predict_except (e : exn) : HTTPException :=
  if isinstance e [PreprocessingError; InvalidFeatureError]
  then mkHTTPException 400 (_format_error_response e)
  else if isinstance e [ModelNotLoadedError; ModelPredictionError]
  then mkHTTPException 503 (_format_error_response e)
  else if isinstance e [PostprocessingError]
  then mkHTTPException 502 (_format_error_response e)
  else if isinstance e [PredictionServiceError]
  then mkHTTPException 500 (_format_error_response e)
  else mkHTTPException 500
         [("error", PStr "InternalServerError");
          ("message", PStr "An unexpected error occurred");
          ("details", PStr (str_exn e))].

Definition post_predict {W : Type} (self : t W)
           (request : PredictionRequestSchema.t)
  : state W -> handled PredictionResponseSchema.t * state W :=
  fun s =>
    match post_predict_body self request s with
    | (Ok response, s') => (Returned response, s')
    | (Raise e, s') => (Raised (post_predict_except e), s')
    | (RaiseBase b, s') => (Escaped b, s')
    end.

End MCPPredictController.

(** ** main.py: the [/predict] route *)

(** The answers of the route: the handler's, or the framework's refusal of
    a body from which the declared parameter [request:
    PredictionRequestSchema] cannot be built (the handler does not run). *)
Inductive answer : Type :=
| Handled (r : handled PredictionResponseSchema.t)
| RequestValidationError (e : exn).

(** [async def predict(request: PredictionRequestSchema)] with the
    module-level [prediction_controller], which is [None] until startup has
    created it.  [features] is the field of the request body. *)
Definition predict_route {W : Type}
           (prediction_controller : option (MCPPredictController.t W))
           (features : pydict)
  : state W -> answer * state W :=
  fun s =>
    match PredictionRequestSchema.new features with
    | Raise e => (RequestValidationError e, s)
    | RaiseBase b => (Handled (Escaped b), s)
    | Ok request =>
        match prediction_controller with
        | None =>
            (Handled (Raised (mkHTTPException 503
               [("error", PStr "ServiceUnavailable");
                ("message", PStr "Prediction service not initialized");
                ("details",
                 PStr "Server is starting up or encountered initialization error")])),
             s)
        | Some controller =>
            let (r, s') :=
              MCPPredictController.post_predict controller request s in
            (Handled r, s')
        end
    end.

(** The status table of the interface description, by kind of error. *)
Definition status_table (k : exc_kind) : Z :=
  match k with
  | PreprocessingError | InvalidFeatureError => 400
  | ModelNotLoadedError | ModelPredictionError => 503
  | PostprocessingError => 502
  | PredictionServiceError => 500
  | _ => 500
  end.

(** ** The default adapters in their roles *)

(** [class DefaultPreprocessor(Preprocessor)]: the adapter keeps nothing
    between calls. *)
Definition default_preprocessor {W : Type} (p : DefaultPreprocessor.t)
  : Preprocessor W :=
  {| preprocessor_transform := fun features =>
       stateless (DefaultPreprocessor.transform p features) |}.

(** [class DefaultPostprocessor(Postprocessor)] *)
Definition default_postprocessor {W : Type} (p : DefaultPostprocessor.t)
  : Postprocessor W :=
  {| postprocessor_transform := fun raw_output =>
       stateless (DefaultPostprocessor.transform p raw_output) |}.

(** A model that returns a fixed output and a fixed version. *)
Definition stub_model {W : Type} (output : pyval) (version : string)
  : MLModel W :=
  {| model_predict := fun _ => stateless (Ok output);
     model_version := stateless (Ok version) |}.

(** A model whose [predict] raises. *)
Definition failing_model {W : Type} (e : exn) (version : string) : MLModel W :=
  {| model_predict := fun _ => stateless (Raise e);
     model_version := stateless (Ok version) |}.

(** The service as [create_prediction_service] wires it, around a given
    model: preprocessor without feature mapping, postprocessor with the
    default output format. *)
Definition service_around {W : Type} (model : MLModel W)
  : PredictionServiceImpl.t W :=
  PredictionServiceImpl.mk model
    (default_preprocessor (DefaultPreprocessor.init None))
    (default_postprocessor (DefaultPostprocessor.init None)).

Definition controller_of {W : Type} (service : PredictionServiceImpl.t W)
  : MCPPredictController.t W :=
  MCPPredictController.mk (PredictionServiceImpl.predict service).

(** The order of the calls of one run of the pipeline. *)
Definition pipeline_order : list call :=
  [CallPreprocessorTransform; CallModelPredict; CallModelVersion;
   CallPostprocessorTransform].

Definition call_eq_dec (a b : call) : {a = b} + {a <> b}.
Proof. decide equality. Defined.

(** The end-to-end scenario. *)
Definition winter_features : pydict :=
  [("product_id", PStr "ABC123");
   ("historical_sales", PList [PInt 100; PInt 120; PInt 95]);
   ("season", PStr "Winter")].

Definition f150 : PyFloat.float := S754_finite false 5277655813324800 (-45).
Definition f180 : PyFloat.float := S754_finite false 6333186975989760 (-45).
Definition f200 : PyFloat.float := S754_finite false 7036874417766400 (-45).

Definition forecast_model : MLModel unit :=
  stub_model (PList [PInt 150; PInt 180; PInt 200]) "v1.0.0".

(** The response with a forecast of floats. *)
Definition float_forecast_response : PredictionResponse.t :=
  PredictionResponse.mk
    (PDict [("forecast", PList [PFloat f150; PFloat f180; PFloat f200]);
            ("format", PStr "json")])
    PyFloat.f0_8 "v1.0.0".

(** The response with the forecast as the model returned it. *)
Definition int_forecast_response : PredictionResponse.t :=
  PredictionResponse.mk
    (PDict [("forecast", PList [PInt 150; PInt 180; PInt 200]);
            ("format", PStr "json")])
    PyFloat.f0_8 "v1.0.0".

Definition start : state unit := mkState tt [].

(** Further inputs used below. *)

(** A request without the required feature. *)
Definition seasonal_features : pydict := [("season", PStr "Winter")].

(** What the default preprocessor raises on it. *)
Definition missing_product_id : exn :=
  mkExn PreprocessingError "Failed to preprocess input features"
        (Some "Required feature missing: product_id").

(** What [predict] raises on it. *)
Definition missing_product_id_rewrapped : exn :=
  mkExn PreprocessingError "Failed to preprocess input features"
        (Some "Failed to preprocess input features").

(** The condition the unfinished model adapters raise. *)
Definition not_implemented : exn :=
  mkExn (OtherException "NotImplementedError")
        "PyTorch model prediction not yet implemented" None.

Definition unfinished_model : MLModel unit :=
  failing_model not_implemented "v1.0.0".

(** The user interrupts the process. *)
Definition keyboard_interrupt : base_exn := mkBaseExn KeyboardInterrupt "".

(** A preprocessor in whose [transform] an exception [b] outside
    [Exception] is raised. *)
Definition interrupted_preprocessor {W : Type} (b : base_exn)
  : Preprocessor W :=
  {| preprocessor_transform := fun _ => stateless (RaiseBase b) |}.

(** The default service with that preprocessor in place of its own. *)
Definition interrupted_service (b : base_exn) : PredictionServiceImpl.t unit :=
  PredictionServiceImpl.mk forecast_model (interrupted_preprocessor b)
    (default_postprocessor (DefaultPostprocessor.init None)).

(** A model that reports an empty version. *)
Definition unversioned_model : MLModel unit :=
  stub_model (PList [PInt 150; PInt 180; PInt 200]) "".

(** What [PredictionResponse] raises on an empty version. *)
Definition empty_version : exn :=
  mkExn ValueError "Model version cannot be empty" None.

(** The features of the scenario after the default preprocessor. *)
Definition normalized_winter_features : pyval :=
  PDict [("product_id", PStr "abc123");
         ("historical_sales",
          PList [PFloat (S754_finite false 7036874417766400 (-46));
                 PFloat (S754_finite false 8444249301319680 (-46));
                 PFloat (S754_finite false 6685030696878080 (-46))]);
         ("season", PStr "winter")].

(** ** infrastructure/models.py *)

Definition NotImplementedError : exc_kind := OtherException "NotImplementedError".
Definition FileNotFoundError : exc_kind := OtherException "FileNotFoundError".

(** Both adapters keep their path as a [pathlib.Path]; [path_text] below
    stands for [str(Path(p))], and the record holds that text.  Whether
    the file exists is asked of the file system at each call and is an
    argument here. *)
Module TorchModel.

Record t : Type := mk {
  _model_path : string;
  _version : string;
  _device : string;
  _loaded_model : option pyval
}.

(** [__init__(model_path, version, device="cpu")] *)
Definition init (path_text : string -> string) (model_path version : string)
           (device : option string) : t :=
  mk (path_text model_path) version
     match device with
     | Some d => d
     | None => "cpu"
     end
     None.

Definition _load_model (self : t) (file_exists : bool) : result unit :=
  try_except
    (if negb file_exists
     then Raise (mkExn FileNotFoundError
                       ("Model file not found: " ++ _model_path self) None)
     else Raise (mkExn NotImplementedError
                       "PyTorch model loading not yet implemented. TODO: Add torch.load() implementation."
                       None))
    (fun e =>
       Raise (mkExn ModelNotLoadedError "Failed to load PyTorch model"
                    (Some (str_exn e)))).

Definition predict (self : t) (input_data : pyval) (file_exists : bool)
  : result pyval :=
  try_except
    (let* _ := match _loaded_model self with
               | None => _load_model self file_exists
               | Some _ => Ok tt
               end in
     Raise (mkExn NotImplementedError
                  "PyTorch model prediction not yet implemented. TODO: Add torch.load(), model.eval(), and inference logic."
                  None))%result
    (fun e =>
       if isinstance e [NotImplementedError] then Raise e
       else Raise (mkExn ModelPredictionError "PyTorch model prediction failed"
                         (Some (str_exn e)))).

Definition version (self : t) : string := _version self.

End TorchModel.

Module SklearnModel.

Record t : Type := mk {
  _model_path : string;
  _version : string;
  _loaded_model : option pyval
}.

Definition init (path_text : string -> string) (model_path version : string)
  : t :=
  mk (path_text model_path) version None.

Definition _load_model (self : t) (file_exists : bool) : result unit :=
  try_except
    (if negb file_exists
     then Raise (mkExn FileNotFoundError
                       ("Model file not found: " ++ _model_path self) None)
     else Raise (mkExn NotImplementedError
                       "Scikit-learn model loading not yet implemented. TODO: Add joblib.load() or pickle.load() implementation."
                       None))
    (fun e =>
       Raise (mkExn ModelNotLoadedError "Failed to load scikit-learn model"
                    (Some (str_exn e)))).

Definition predict (self : t) (input_data : pyval) (file_exists : bool)
  : result pyval :=
  try_except
    (let* _ := match _loaded_model self with
               | None => _load_model self file_exists
               | Some _ => Ok tt
               end in
     Raise (mkExn NotImplementedError
                  "Scikit-learn model prediction not yet implemented. TODO: Add model.predict() implementation."
                  None))%result
    (fun e =>
       if isinstance e [NotImplementedError] then Raise e
       else Raise (mkExn ModelPredictionError
                         "Scikit-learn model prediction failed"
                         (Some (str_exn e)))).

Definition version (self : t) : string := _version self.

End SklearnModel.

(** The two adapters in the role of [MLModel]; [path_exists] reads the
    file system out of the collaborators' state. *)
Definition torch_model {W : Type} (path_exists : W -> string -> bool)
           (m : TorchModel.t) : MLModel W :=
  {| model_predict := fun input_data w =>
       (TorchModel.predict m input_data
          (path_exists w (TorchModel._model_path m)), w);
     model_version := stateless (Ok (TorchModel.version m)) |}.

Definition sklearn_model {W : Type} (path_exists : W -> string -> bool)
           (m : SklearnModel.t) : MLModel W :=
  {| model_predict := fun input_data w =>
       (SklearnModel.predict m input_data
          (path_exists w (SklearnModel._model_path m)), w);
     model_version := stateless (Ok (SklearnModel.version m)) |}.

(** ** config.py *)

Module Settings.

Record t : Type := mk {
  app_name : string;
  app_version : string;
  debug : bool;
  model_type : string;
  model_path : string;
  model_version : string;
  torch_device : string;
  feature_mapping_file : option string;
  output_format : string;
  log_level : string;
  log_format : string
}.

(** The defaults of the fields. *)
Definition defaults : t :=
  mk "MCP Prediction Server" "1.0.0" false "sklearn" "./models/model.pkl"
     "v1.0.0" "cpu" None "json" "INFO"
     "%(asctime)s - %(name)s - %(levelname)s - %(message)s".

End Settings.

(** What [create_model] returns. *)
Inductive model_adapter : Type :=
| TorchAdapter (m : TorchModel.t)
| SklearnAdapter (m : SklearnModel.t).

Definition adapter_model {W : Type} (path_exists : W -> string -> bool)
           (a : model_adapter) : MLModel W :=
  match a with
  | TorchAdapter m => torch_model path_exists m
  | SklearnAdapter m => sklearn_model path_exists m
  end.

(** [str_lower] stands for [str.lower], the lowering of the Python
    runtime, which follows Unicode; it is an argument so that nothing is
    assumed of it. *)
Definition create_model (path_text str_lower : string -> string)
           (settings : Settings.t) : result model_adapter :=
  let model_path := path_text (Settings.model_path settings) in
  if String.eqb (str_lower (Settings.model_type settings)) "torch"
  then Ok (TorchAdapter
             (TorchModel.init path_text model_path
                (Settings.model_version settings)
                (Some (Settings.torch_device settings))))
  else if String.eqb (str_lower (Settings.model_type settings)) "sklearn"
  then Ok (SklearnAdapter
             (SklearnModel.init path_text model_path
                (Settings.model_version settings)))
  else Raise (mkExn ValueError
                    ("Unsupported model type: " ++ Settings.model_type settings)
                    None).

(** [feature_mapping] stays [None]: the file named by the settings is not
    loaded. *)
Definition create_preprocessor (settings : Settings.t) : DefaultPreprocessor.t :=
  DefaultPreprocessor.init None.

Definition create_postprocessor (settings : Settings.t)
  : DefaultPostprocessor.t :=
  DefaultPostprocessor.init (Some (Settings.output_format settings)).

Definition create_prediction_service {W : Type}
           (path_exists : W -> string -> bool)
           (path_text str_lower : string -> string)
           (settings : Settings.t) : result (PredictionServiceImpl.t W) :=
  (let* model := create_model path_text str_lower settings in
   let preprocessor := create_preprocessor settings in
   let postprocessor := create_postprocessor settings in
   Ok (PredictionServiceImpl.mk (adapter_model path_exists model)
         (default_preprocessor preprocessor)
         (default_postprocessor postprocessor)))%result.

Definition create_controller {W : Type}
           (prediction_service : PredictionServiceImpl.t W)
  : MCPPredictController.t W :=
  MCPPredictController.mk (PredictionServiceImpl.predict prediction_service).

(** main.py: the startup part of [lifespan], which sets the module-level
    [prediction_controller] or fails. *)
Definition startup {W : Type} (path_exists : W -> string -> bool)
           (path_text str_lower : string -> string) (settings : Settings.t)
  : result (MCPPredictController.t W) :=
  (let* prediction_service :=
     create_prediction_service path_exists path_text str_lower settings in
   Ok (create_controller prediction_service))%result.

(** ** Equality of values, as [==] decides it *)

(** [True] and [False] as the integers they are. *)
Definition int_of_bool (b : bool) : Z := if b then 1 else 0.

(** [n == f] for an [int] and a [float]: the two numbers are compared
    exactly; no infinity and no NaN equals an integer. *)
Definition int_eq_float (n : Z) (f : PyFloat.float) : bool :=
  match f with
  | S754_zero _ => Z.eqb n 0
  | S754_finite negative m e =>
      let signed := if negative then Z.neg m else Z.pos m in
      if Z.leb 0 e then Z.eqb n (signed * 2 ^ e)
      else Z.eqb (n * 2 ^ (- e)) signed
  | S754_infinity _ | S754_nan => false
  end.

(** [a == b].  Numbers ([bool], [int], [float]) compare by value across
    their types, strings by their characters, lists and tuples element by
    element, dicts by their entries whatever the order.  [py_eq] answers
    [true] only where Python answers [True]: for an object of a class the
    model does not describe, which compares by its own [__eq__], and for a
    NaN, which equals nothing but is found equal inside a container when it
    is the same object, it answers [false]. *)
Fixpoint py_eq (a b : pyval) {struct a} : bool :=
  let fix seq_eq (l l' : list pyval) {struct l} : bool :=
    match l, l' with
    | [], [] => true
    | x :: r, y :: r' => py_eq x y && seq_eq r r'
    | _, _ => false
    end in
  let fix entries_in (d : list (string * pyval)) (d' : pydict) {struct d}
    : bool :=
    match d with
    | [] => true
    | (k, v) :: r =>
        match Dict.get k d' with
        | Some v' => py_eq v v'
        | None => false
        end && entries_in r d'
    end in
  match a, b with
  | PNone, PNone => true
  | PBool x, PBool y => Bool.eqb x y
  | PBool x, PInt n => Z.eqb (int_of_bool x) n
  | PBool x, PFloat f => int_eq_float (int_of_bool x) f
  | PInt n, PBool y => Z.eqb n (int_of_bool y)
  | PInt n, PInt m => Z.eqb n m
  | PInt n, PFloat f => int_eq_float n f
  | PFloat f, PBool y => int_eq_float (int_of_bool y) f
  | PFloat f, PInt n => int_eq_float n f
  | PFloat f, PFloat g => SFeqb f g
  | PStr x, PStr y => String.eqb x y
  | PList l, PList l' => seq_eq l l'
  | PTuple l, PTuple l' => seq_eq l l'
  | PDict d, PDict d' =>
      Nat.eqb (List.length d) (List.length d') && entries_in d d'
  | _, _ => false
  end.

(** [r == r'] for two [PredictionResponse]: the [__eq__] that [@dataclass]
    generates compares the tuples of the fields. *)
Definition response_eq (r r' : PredictionResponse.t) : bool :=
  py_eq (PredictionResponse.prediction r) (PredictionResponse.prediction r')
  && SFeqb (PredictionResponse.confidence r) (PredictionResponse.confidence r')
  && String.eqb (PredictionResponse.model_version r)
       (PredictionResponse.model_version r').

(** ** Notions used to state the properties *)

(** The names of a [dict], in order. *)
Definition keys {V : Type} (d : list (string * V)) : list string :=
  map fst d.

(** The name [_apply_feature_mapping] gives to a feature. *)
Definition mapped_name (mapping : list (string * string)) (name : string)
  : string :=
  match Dict.get name mapping with
  | Some n => n
  | None => name
  end.

Definition is_float (v : pyval) : bool :=
  match v with
  | PFloat _ => true
  | _ => false
  end.

(** [isinstance(v, (int, float))] *)
Definition is_number (v : pyval) : bool :=
  match v with
  | PBool _ | PInt _ | PFloat _ => true
  | _ => false
  end.

(** In the run of [predict] from [s], one of the calls to the
    collaborators raised [b], the calls before it having returned. *)
Definition raised_by_collaborator {W : Type} (self : PredictionServiceImpl.t W)
           (request : PredictionRequest.t) (s : state W) (b : base_exn)
  : Prop :=
  (exists w1,
      preprocessor_transform (PredictionServiceImpl._preprocessor self)
        (PredictionRequest.features request) (world s) = (RaiseBase b, w1))
  \/ (exists x w1 w2,
        preprocessor_transform (PredictionServiceImpl._preprocessor self)
          (PredictionRequest.features request) (world s) = (Ok x, w1)
        /\ model_predict (PredictionServiceImpl._model self) x w1
           = (RaiseBase b, w2))
  \/ (exists x raw w1 w2 w3,
        preprocessor_transform (PredictionServiceImpl._preprocessor self)
          (PredictionRequest.features request) (world s) = (Ok x, w1)
        /\ model_predict (PredictionServiceImpl._model self) x w1
           = (Ok raw, w2)
        /\ model_version (PredictionServiceImpl._model self) w2
           = (RaiseBase b, w3))
  \/ (exists x raw v w1 w2 w3 w4,
        preprocessor_transform (PredictionServiceImpl._preprocessor self)
          (PredictionRequest.features request) (world s) = (Ok x, w1)
        /\ model_predict (PredictionServiceImpl._model self) x w1
           = (Ok raw, w2)
        /\ model_version (PredictionServiceImpl._model self) w2 = (Ok v, w3)
        /\ postprocessor_transform
             (PredictionServiceImpl._postprocessor self) raw w3
           = (RaiseBase b, w4)).


(** A [str] of ASCII characters. *)
Definition ascii_only (s : string) : bool :=
  forallb (fun c => Nat.ltb (nat_of_ascii c) 128) (list_ascii_of_string s).

(** A value whose text, if it is a [str], is ASCII. *)
Definition ascii_value (v : pyval) : bool :=
  match v with
  | PStr s => ascii_only s
  | _ => true
  end.

(** An item and its normalized form: the same name, the value as one turn
    of the loop of [_normalize_features] leaves it (for a [str], when it is
    ASCII, see [lower]). *)
Definition normalizes (item item' : string * pyval) : Prop :=
  fst item = fst item'
  /\ DefaultPreprocessor.normalize_value (snd item) = Ok (snd item').

(** What [float()] raises on an [int] out of range. *)
Definition int_too_large : exn :=
  mkExn OverflowError "int too large to convert to float" None.

(** The last item of [items] that [_apply_feature_mapping] files under
    the name [name]. *)
Definition last_mapped (mapping : list (string * string)) (name : string)
           (items : pydict) : option pyval :=
  option_map snd
    (find (fun item => String.eqb name (mapped_name mapping (fst item)))
          (rev items)).

(** Further inputs. *)
Definition torch_settings : Settings.t :=
  Settings.mk "MCP Prediction Server" "1.0.0" false "Torch" "model.pt"
     "v2.0.0" "cpu" None "array" "INFO" "%(message)s".

Definition no_files : unit -> string -> bool := fun _ _ => false.

Definition same_text : string -> string := fun p => p.

Definition huge : Z := 2 ^ 1024.

(** What [predict] of an adapter raises as long as no model is loaded. *)
Definition adapter_failure (a : model_adapter) : exn :=
  match a with
  | TorchAdapter _ =>
      mkExn ModelPredictionError "PyTorch model prediction failed"
            (Some "Failed to load PyTorch model")
  | SklearnAdapter _ =>
      mkExn ModelPredictionError "Scikit-learn model prediction failed"
            (Some "Failed to load scikit-learn model")
  end.

(** A model that returns [None]. *)
Definition silent_model : MLModel unit := stub_model PNone "v1.0.0".


(** The schema [post_predict] builds from a response entity. *)
Definition schema_of (r : PredictionResponse.t) : PredictionResponseSchema.t :=
  PredictionResponseSchema.mk (PredictionResponse.prediction r)
    (PredictionResponse.confidence r) (PredictionResponse.model_version r).

Definition overflowing_features : pydict :=
  [("product_id", PStr "ABC123"); ("stock", PInt huge)].

(** Two features filed under one name. *)
Definition sales_mapping : list (string * string) :=
  [("sales", "units"); ("sold", "units")].

Definition sales_features : pydict :=
  [("product_id", PStr "ABC123"); ("sales", PInt 3); ("sold", PInt 5)].

(** * Properties *)

(** ** Floats *)

(** The constants are the binary64 numbers the literals denote. *)
Lemma literals_binary64 :
  Prim2SF 0x0p+0%float = PyFloat.f0_0
  /\ Prim2SF 0x1p+0%float = PyFloat.f1_0
  /\ Prim2SF 0x1.999999999999ap-1%float = PyFloat.f0_8
  /\ Prim2SF 0x1.8p+0%float = PyFloat.f1_5
  /\ Prim2SF (-0x1.999999999999ap-4)%float = PyFloat.neg_f0_1
  /\ Prim2SF 150%float = f150
  /\ Prim2SF 180%float = f180
  /\ Prim2SF 200%float = f200.
Proof. repeat split; reflexivity. Qed.

Lemma SFcompare_Lt_Gt (x y : spec_float) :
  SFcompare x y = Some Lt -> SFcompare y x = Some Gt.
Proof.
  destruct x as [sx | sx | | sx mx ex], y as [sy | sy | | sy my ey];
    simpl; try discriminate;
    try (destruct sx; (discriminate || reflexivity));
    try (destruct sy; (discriminate || reflexivity));
    try (destruct sx, sy; (discriminate || reflexivity)).
  intros H. injection H as H. f_equal.
  rewrite (Z.compare_antisym ex ey).
  change (PosDef.Pos.compare_cont Eq my mx)
    with (Pos.compare_cont (CompOpp Eq) my mx).
  rewrite <- (Pos.compare_cont_antisym mx my Eq).
  change (PosDef.Pos.compare_cont Eq mx my)
    with (Pos.compare_cont Eq mx my) in H.
  destruct sx, sy; try discriminate; try reflexivity;
    destruct (ex ?= ey)%Z; simpl in *; try discriminate; try reflexivity;
    destruct (Pos.compare_cont Eq mx my); simpl in *;
    try discriminate; reflexivity.
Qed.

Lemma lt_not_ge (x y : PyFloat.float) :
  PyFloat.lt x y = true -> PyFloat.le y x = false.
Proof.
  unfold PyFloat.lt, PyFloat.le, SFltb, SFleb. intros H.
  destruct (SFcompare x y) as [[ | | ] | ] eqn:E; try discriminate.
  now rewrite (SFcompare_Lt_Gt _ _ E).
Qed.

(** ** Exceptions *)

(** The test behind [isinstance] decides equality of kinds. *)
Lemma exc_kind_eqb_eq (a b : exc_kind) : exc_kind_eqb a b = true <-> a = b.
Proof.
  split.
  - destruct a, b; simpl; try discriminate; try reflexivity.
    intros H. apply String.eqb_eq in H. now subst.
  - intros <-. destruct a; simpl; try reflexivity. apply String.eqb_refl.
Qed.

(** An [except] clause on named kinds selects by kind. *)
Lemma isinstance_In (e : exn) (ks : list exc_kind) :
  isinstance e ks = true <-> In (kind e) ks.
Proof.
  unfold isinstance. rewrite existsb_exists. split.
  - intros (k & Hk & Heq). apply exc_kind_eqb_eq in Heq. now subst.
  - intros H. exists (kind e). split; [exact H | now apply exc_kind_eqb_eq].
Qed.

(** ** The orchestrator, step by step *)

Section Pipeline.

Context {W : Type}.
Variable self : PredictionServiceImpl.t W.
Variable request : PredictionRequest.t.
Variable s : state W.

Local Abbreviation pre :=
  (preprocessor_transform (PredictionServiceImpl._preprocessor self)
     (PredictionRequest.features request)).
Local Abbreviation infer := (model_predict (PredictionServiceImpl._model self)).
Local Abbreviation version := (model_version (PredictionServiceImpl._model self)).
Local Abbreviation post :=
  (postprocessor_transform (PredictionServiceImpl._postprocessor self)).

Ltac run :=
  unfold PredictionServiceImpl.predict, PredictionServiceImpl.predict_body,
    PredictionServiceImpl.predict_except, try_catch, bind, invoke, raise,
    ret, lift;
  simpl.

(** The preprocessor raises. *)
Lemma predict_pre_raises (e : exn) (w1 : W) :
  pre (world s) = (Raise e, w1) ->
  PredictionServiceImpl.predict self request s =
  (Raise (PredictionServiceImpl.preprocessing_failed e),
   mkState w1 (calls s ++ firstn 1 pipeline_order)).
Proof. intros H. run. rewrite H. reflexivity. Qed.

(** The model's [predict] raises. *)
Lemma predict_infer_raises (x : pyval) (e : exn) (w1 w2 : W) :
  pre (world s) = (Ok x, w1) ->
  infer x w1 = (Raise e, w2) ->
  PredictionServiceImpl.predict self request s =
  (Raise (PredictionServiceImpl.prediction_failed e),
   mkState w2 (calls s ++ firstn 2 pipeline_order)).
Proof.
  intros H1 H2. run. rewrite H1. simpl. rewrite H2. simpl.
  now rewrite <- app_assoc.
Qed.

(** The model's [version] raises. *)
Lemma predict_version_raises (x raw : pyval) (e : exn) (w1 w2 w3 : W) :
  pre (world s) = (Ok x, w1) ->
  infer x w1 = (Ok raw, w2) ->
  version w2 = (Raise e, w3) ->
  PredictionServiceImpl.predict self request s =
  (Raise (PredictionServiceImpl.prediction_failed e),
   mkState w3 (calls s ++ firstn 3 pipeline_order)).
Proof.
  intros H1 H2 H3. run. rewrite H1. simpl. rewrite H2. simpl.
  rewrite H3. simpl. now rewrite <- !app_assoc.
Qed.

(** The postprocessor raises. *)
Lemma predict_post_raises (x raw : pyval) (v : string) (e : exn)
      (w1 w2 w3 w4 : W) :
  pre (world s) = (Ok x, w1) ->
  infer x w1 = (Ok raw, w2) ->
  version w2 = (Ok v, w3) ->
  post raw w3 = (Raise e, w4) ->
  PredictionServiceImpl.predict self request s =
  (Raise (PredictionServiceImpl.postprocessing_failed e),
   mkState w4 (calls s ++ pipeline_order)).
Proof.
  intros H1 H2 H3 H4. run. rewrite H1. simpl. rewrite H2. simpl.
  rewrite H3. simpl. rewrite H4. simpl. now rewrite <- !app_assoc.
Qed.

(** What [PredictionResponse] raises is a [ValueError]. *)
Lemma response_raises_ValueError (p : pyval) (c : PyFloat.float) (v : string)
      (e : exn) :
  PredictionResponse.new p c v = Raise e -> kind e = ValueError.
Proof.
  unfold PredictionResponse.new.
  destruct (negb _); [intros [= <-]; reflexivity |].
  destruct (String.eqb v ""); [intros [= <-]; reflexivity | discriminate].
Qed.

(** All three steps return: the outcome is that of building the entity. *)
Lemma predict_steps_return (x raw out : pyval) (v : string)
      (w1 w2 w3 w4 : W) :
  pre (world s) = (Ok x, w1) ->
  infer x w1 = (Ok raw, w2) ->
  version w2 = (Ok v, w3) ->
  post raw w3 = (Ok out, w4) ->
  PredictionServiceImpl.predict self request s =
  (match PredictionResponse.new out
           (PredictionServiceImpl._calculate_confidence raw out) v with
   | Ok response => Ok response
   | Raise e =>
       Raise (mkExn PredictionServiceError
                    "Unexpected error during prediction" (Some (str_exn e)))
   | RaiseBase b => RaiseBase b
   end,
   mkState w4 (calls s ++ pipeline_order)).
Proof.
  intros H1 H2 H3 H4. run. rewrite H1. simpl. rewrite H2. simpl.
  rewrite H3. simpl. rewrite H4. simpl. rewrite <- !app_assoc. simpl.
  destruct (PredictionResponse.new _ _ _) as [r | e | b] eqn:E;
    [reflexivity | | reflexivity].
  apply response_raises_ValueError in E.
  unfold isinstance. rewrite E. reflexivity.
Qed.

(** An exception that does not derive from [Exception], raised by a
    collaborator, passes the handler of the step and the outer handlers:
    it leaves [predict] as it is, after the calls made so far. *)
Lemma predict_pre_escapes (b : base_exn) (w1 : W) :
  pre (world s) = (RaiseBase b, w1) ->
  PredictionServiceImpl.predict self request s =
  (RaiseBase b, mkState w1 (calls s ++ firstn 1 pipeline_order)).
Proof. intros H. run. rewrite H. reflexivity. Qed.

Lemma predict_infer_escapes (x : pyval) (b : base_exn) (w1 w2 : W) :
  pre (world s) = (Ok x, w1) ->
  infer x w1 = (RaiseBase b, w2) ->
  PredictionServiceImpl.predict self request s =
  (RaiseBase b, mkState w2 (calls s ++ firstn 2 pipeline_order)).
Proof.
  intros H1 H2. run. rewrite H1. simpl. rewrite H2. simpl.
  now rewrite <- app_assoc.
Qed.

Lemma predict_version_escapes (x raw : pyval) (b : base_exn) (w1 w2 w3 : W) :
  pre (world s) = (Ok x, w1) ->
  infer x w1 = (Ok raw, w2) ->
  version w2 = (RaiseBase b, w3) ->
  PredictionServiceImpl.predict self request s =
  (RaiseBase b, mkState w3 (calls s ++ firstn 3 pipeline_order)).
Proof.
  intros H1 H2 H3. run. rewrite H1. simpl. rewrite H2. simpl.
  rewrite H3. simpl. now rewrite <- !app_assoc.
Qed.

Lemma predict_post_escapes (x raw : pyval) (v : string) (b : base_exn)
      (w1 w2 w3 w4 : W) :
  pre (world s) = (Ok x, w1) ->
  infer x w1 = (Ok raw, w2) ->
  version w2 = (Ok v, w3) ->
  post raw w3 = (RaiseBase b, w4) ->
  PredictionServiceImpl.predict self request s =
  (RaiseBase b, mkState w4 (calls s ++ pipeline_order)).
Proof.
  intros H1 H2 H3 H4. run. rewrite H1. simpl. rewrite H2. simpl.
  rewrite H3. simpl. rewrite H4. simpl. now rewrite <- !app_assoc.
Qed.

(** Building the response raises nothing outside [Exception]. *)
Lemma response_never_escapes (p : pyval) (c : PyFloat.float) (v : string)
      (b : base_exn) :
  PredictionResponse.new p c v <> RaiseBase b.
Proof.
  unfold PredictionResponse.new.
  destruct (negb _); [discriminate |].
  destruct (String.eqb v ""); discriminate.
Qed.

End Pipeline.

(** The calls of one run are a non-empty prefix of [pipeline_order]. *)
Lemma predict_calls_prefix {W : Type} (self : PredictionServiceImpl.t W)
      (request : PredictionRequest.t) (s : state W) :
  exists n : nat,
    (1 <= n <= 4)%nat
    /\ calls (snd (PredictionServiceImpl.predict self request s))
       = calls s ++ firstn n pipeline_order
    /\ (forall e,
          fst (PredictionServiceImpl.predict self request s) = Raise e ->
          kind e = ModelPredictionError ->
          (2 <= n)%nat
          /\ exists x w1,
               preprocessor_transform
                 (PredictionServiceImpl._preprocessor self)
                 (PredictionRequest.features request) (world s)
               = (Ok x, w1)).
Proof.
  destruct (preprocessor_transform (PredictionServiceImpl._preprocessor self)
              (PredictionRequest.features request) (world s))
    as [[x | e1 | b1] w1] eqn:H1.
  2:{ exists 1%nat. rewrite (predict_pre_raises _ _ _ _ _ H1).
      split; [lia | split; [reflexivity |]].
      simpl. intros e' [= <-]. discriminate. }
  2:{ exists 1%nat. rewrite (predict_pre_escapes _ _ _ _ _ H1).
      split; [lia | split; [reflexivity |]].
      simpl. intros e' H. discriminate. }
  destruct (model_predict (PredictionServiceImpl._model self) x w1)
    as [[raw | e2 | b2] w2] eqn:H2.
  2:{ exists 2%nat. rewrite (predict_infer_raises _ _ _ _ _ _ _ H1 H2).
      split; [lia | split; [reflexivity |]].
      intros e' _ _. split; [lia | eauto]. }
  2:{ exists 2%nat. rewrite (predict_infer_escapes _ _ _ _ _ _ _ H1 H2).
      split; [lia | split; [reflexivity |]].
      intros e' _ _. split; [lia | eauto]. }
  destruct (model_version (PredictionServiceImpl._model self) w2)
    as [[v | e3 | b3] w3] eqn:H3.
  2:{ exists 3%nat.
      rewrite (predict_version_raises _ _ _ _ _ _ _ _ _ H1 H2 H3).
      split; [lia | split; [reflexivity |]].
      intros e' _ _. split; [lia | eauto]. }
  2:{ exists 3%nat.
      rewrite (predict_version_escapes _ _ _ _ _ _ _ _ _ H1 H2 H3).
      split; [lia | split; [reflexivity |]].
      intros e' _ _. split; [lia | eauto]. }
  destruct (postprocessor_transform
              (PredictionServiceImpl._postprocessor self) raw w3)
    as [[out | e4 | b4] w4] eqn:H4.
  2:{ exists 4%nat.
      rewrite (predict_post_raises _ _ _ _ _ _ _ _ _ _ _ H1 H2 H3 H4).
      split; [lia | split; [reflexivity |]].
      simpl. intros e' [= <-]. discriminate. }
  2:{ exists 4%nat.
      rewrite (predict_post_escapes _ _ _ _ _ _ _ _ _ _ _ H1 H2 H3 H4).
      split; [lia | split; [reflexivity |]].
      simpl. intros e' H. discriminate. }
  exists 4%nat.
  rewrite (predict_steps_return _ _ _ _ _ _ _ _ _ _ _ H1 H2 H3 H4).
  split; [lia | split; [reflexivity |]].
  simpl. destruct (PredictionResponse.new _ _ _) as [r | e5 | b5];
    intros e' H; try discriminate.
  injection H as <-. discriminate.
Qed.

Lemma prefix_counts (n : nat) (c : call) :
  (count_occ call_eq_dec (firstn n pipeline_order) c <= 1)%nat.
Proof.
  do 5 (destruct n as [| n]; [destruct c; simpl; lia |]).
  destruct c; simpl; lia.
Qed.

Lemma prefix_counts_first (n : nat) :
  (1 <= n)%nat ->
  count_occ call_eq_dec (firstn n pipeline_order) CallPreprocessorTransform
  = 1%nat.
Proof.
  intros H. destruct n as [| n]; [lia |].
  do 4 (destruct n as [| n]; [reflexivity |]). reflexivity.
Qed.

(** ** The orchestrator: claims about [predict] *)




(** C3.  In every run of [predict] the calls made to the collaborators are
    a non-empty beginning of the sequence preprocess, model predict, model
    version, postprocess: the preprocessor's [transform] is called exactly
    once, no call is made twice, and none out of order.  When the run
    raises a [ModelPredictionError], the preprocessor's [transform] had
    returned and the model had been called. *)
Theorem pipeline_steps_once_in_order :
  forall (W : Type) (self : PredictionServiceImpl.t W)
         (request : PredictionRequest.t) (s : state W),
    exists n : nat,
      (1 <= n <= 4)%nat
      /\ calls (snd (PredictionServiceImpl.predict self request s))
         = calls s ++ firstn n pipeline_order
      /\ count_occ call_eq_dec (firstn n pipeline_order)
           CallPreprocessorTransform = 1%nat
      /\ (forall c : call,
            (count_occ call_eq_dec (firstn n pipeline_order) c <= 1)%nat)
      /\ (forall e : exn,
            fst (PredictionServiceImpl.predict self request s) = Raise e ->
            kind e = ModelPredictionError ->
            (2 <= n)%nat
            /\ exists (x : pyval) (w1 : W),
                 preprocessor_transform
                   (PredictionServiceImpl._preprocessor self)
                   (PredictionRequest.features request) (world s)
                 = (Ok x, w1)).
Proof.
  intros W self request s.
  destruct (predict_calls_prefix self request s) as (n & Hn & Hcalls & Hmodel).
  exists n. split; [exact Hn |]. split; [exact Hcalls |].
  split; [apply prefix_counts_first; lia |].
  split; [intros c; apply prefix_counts | exact Hmodel].
Qed.

Lemma pipeline_steps_once_in_order_witness :
  exists (x : pyval) (w1 : unit),
    preprocessor_transform
      (PredictionServiceImpl._preprocessor (service_around unfinished_model))
      winter_features tt
    = (Ok x, w1).
Proof.
  destruct (pipeline_steps_once_in_order unit
              (service_around unfinished_model)
              (PredictionRequest.mk winter_features) start)
    as (n & _ & _ & _ & _ & H).
  apply (H (PredictionServiceImpl.prediction_failed not_implemented));
    reflexivity.
Defined.

(** C4.  An exception of one of the three named kinds that a step of the
    pipeline raises, a step being a [try] block of [predict] with its
    handler, leaves [predict] as that very exception: the same kind, the
    same message, the same details, with the collaborators as the step
    left them.  The outer handler re-raises it and wraps it in nothing. *)
Theorem named_step_error_propagates_unchanged :
  forall (W : Type) (self : PredictionServiceImpl.t W)
         (request : PredictionRequest.t) (s s' : state W) (e : exn),
    PredictionServiceImpl.predict_body self request s = (Raise e, s') ->
    In (kind e) [PreprocessingError; ModelPredictionError; PostprocessingError] ->
    PredictionServiceImpl.predict self request s = (Raise e, s')
    /\ PredictionServiceImpl.predict_except e s' = (Raise e, s').
Proof.
  intros W self request s s' e Hbody Hkind.
  assert (Hnamed : isinstance e PredictionServiceImpl.step_errors = true)
    by (apply isinstance_In; exact Hkind).
  unfold PredictionServiceImpl.predict, try_catch. rewrite Hbody.
  unfold PredictionServiceImpl.predict_except. rewrite Hnamed.
  split; reflexivity.
Qed.

Lemma named_step_error_propagates_unchanged_witness :
  PredictionServiceImpl.predict (service_around forecast_model)
    (PredictionRequest.mk seasonal_features) start
  = (Raise missing_product_id_rewrapped,
     mkState tt [CallPreprocessorTransform])
  /\ PredictionServiceImpl.predict_except missing_product_id_rewrapped
       (mkState tt [CallPreprocessorTransform])
     = (Raise missing_product_id_rewrapped,
        mkState tt [CallPreprocessorTransform]).
Proof.
  apply (named_step_error_propagates_unchanged unit
           (service_around forecast_model)
           (PredictionRequest.mk seasonal_features) start
           (mkState tt [CallPreprocessorTransform])
           missing_product_id_rewrapped).
  - reflexivity.
  - simpl. tauto.
Defined.



(** C5.  A failure in the body of [predict] that is not of one of the
    three named kinds makes [predict] raise a [PredictionServiceError]
    whose details are [str] of that failure, with the collaborators as
    the failure left them.  In particular, when the three steps have
    returned and building the response entity raises its validation
    error, [predict] raises the [PredictionServiceError] with the text of
    that validation error as details. *)
Theorem unexpected_failure_is_PredictionServiceError :
  forall (W : Type) (self : PredictionServiceImpl.t W)
         (request : PredictionRequest.t) (s : state W),
    (forall (e : exn) (s' : state W),
        PredictionServiceImpl.predict_body self request s = (Raise e, s') ->
        isinstance e PredictionServiceImpl.step_errors = false ->
        PredictionServiceImpl.predict self request s
        = (Raise (mkExn PredictionServiceError
                        "Unexpected error during prediction"
                        (Some (str_exn e))), s'))
    /\ (forall (x raw out : pyval) (v : string) (w1 w2 w3 w4 : W) (e : exn),
          preprocessor_transform (PredictionServiceImpl._preprocessor self)
            (PredictionRequest.features request) (world s) = (Ok x, w1) ->
          model_predict (PredictionServiceImpl._model self) x w1
          = (Ok raw, w2) ->
          model_version (PredictionServiceImpl._model self) w2
          = (Ok v, w3) ->
          postprocessor_transform
            (PredictionServiceImpl._postprocessor self) raw w3
          = (Ok out, w4) ->
          PredictionResponse.new out
            (PredictionServiceImpl._calculate_confidence raw out) v
          = Raise e ->
          fst (PredictionServiceImpl.predict self request s)
          = Raise (mkExn PredictionServiceError
                         "Unexpected error during prediction"
                         (Some (str_exn e)))).
Proof.
  intros W self request s. split.
  - intros e s' Hbody Hkind.
    unfold PredictionServiceImpl.predict, try_catch. rewrite Hbody.
    unfold PredictionServiceImpl.predict_except. rewrite Hkind. reflexivity.
  - intros x raw out v w1 w2 w3 w4 e H1 H2 H3 H4 H5.
    rewrite (predict_steps_return _ _ _ _ _ _ _ _ _ _ _ H1 H2 H3 H4).
    simpl. rewrite H5. reflexivity.
Qed.

Lemma unexpected_failure_is_PredictionServiceError_witness :
  PredictionServiceImpl.predict (service_around unversioned_model)
    (PredictionRequest.mk winter_features) start
  = (Raise (mkExn PredictionServiceError "Unexpected error during prediction"
                  (Some (str_exn empty_version))),
     mkState tt pipeline_order)
  /\ fst (PredictionServiceImpl.predict (service_around unversioned_model)
            (PredictionRequest.mk winter_features) start)
     = Raise (mkExn PredictionServiceError
                    "Unexpected error during prediction"
                    (Some (str_exn empty_version))).
Proof.
  destruct (unexpected_failure_is_PredictionServiceError unit
              (service_around unversioned_model)
              (PredictionRequest.mk winter_features) start)
    as (Hbody & Hentity).
  split.
  - apply Hbody; reflexivity.
  - apply (Hentity normalized_winter_features
             (PList [PInt 150; PInt 180; PInt 200])
             (PredictionResponse.prediction int_forecast_response)
             "" tt tt tt tt empty_version);
      reflexivity.
Defined.

(** ** The entities *)

(** C9.  Building a [PredictionResponse] raises the validation error on
    every confidence strictly above 1.0 and on every confidence strictly
    below 0.0, among them 1.5 and -0.1; with a non-empty version it
    returns the entity at 0.0 and at 1.0; with an empty version it raises
    a validation error whatever the confidence. *)
Theorem response_validation :
  forall (prediction : pyval) (confidence : PyFloat.float)
         (model_version : string),
    (PyFloat.lt PyFloat.f1_0 confidence = true
     \/ PyFloat.lt confidence PyFloat.f0_0 = true ->
     PredictionResponse.new prediction confidence model_version
     = Raise (mkExn ValueError "Confidence must be between 0.0 and 1.0" None))
    /\ PredictionResponse.new prediction PyFloat.f1_5 model_version
       = Raise (mkExn ValueError "Confidence must be between 0.0 and 1.0" None)
    /\ PredictionResponse.new prediction PyFloat.neg_f0_1 model_version
       = Raise (mkExn ValueError "Confidence must be between 0.0 and 1.0" None)
    /\ (model_version <> "" ->
        PredictionResponse.new prediction PyFloat.f0_0 model_version
        = Ok (PredictionResponse.mk prediction PyFloat.f0_0 model_version)
        /\ PredictionResponse.new prediction PyFloat.f1_0 model_version
           = Ok (PredictionResponse.mk prediction PyFloat.f1_0 model_version))
    /\ (exists e : exn,
          PredictionResponse.new prediction confidence "" = Raise e
          /\ kind e = ValueError).
Proof.
  intros prediction confidence model_version.
  split; [| split; [reflexivity | split; [reflexivity | split]]].
  - intros [H | H]; apply lt_not_ge in H; unfold PredictionResponse.new;
      rewrite H; [rewrite andb_false_r |]; reflexivity.
  - intros Hv. apply String.eqb_neq in Hv.
    unfold PredictionResponse.new. simpl. rewrite Hv. split; reflexivity.
  - unfold PredictionResponse.new.
    destruct (negb _); eexists; split; reflexivity.
Qed.

Lemma response_validation_witness :
  PredictionResponse.new (PStr "forecast") PyFloat.f1_5 "v1.0.0"
  = Raise (mkExn ValueError "Confidence must be between 0.0 and 1.0" None)
  /\ PredictionResponse.new (PStr "forecast") PyFloat.f0_0 "v1.0.0"
     = Ok (PredictionResponse.mk (PStr "forecast") PyFloat.f0_0 "v1.0.0")
  /\ PredictionResponse.new (PStr "forecast") PyFloat.f1_0 "v1.0.0"
     = Ok (PredictionResponse.mk (PStr "forecast") PyFloat.f1_0 "v1.0.0").
Proof.
  destruct (response_validation (PStr "forecast") PyFloat.f1_5 "v1.0.0")
    as (Hout & _ & _ & Hin & _).
  split.
  - apply Hout. left. reflexivity.
  - apply Hin. discriminate.
Defined.

(** C6.  The confidence is a function of the raw prediction and the
    processed output alone, it is 0.8 on every pair of them, and so lies
    between 0.0 and 1.0. *)
Theorem confidence_placeholder :
  forall raw_prediction processed_output : pyval,
    PredictionServiceImpl._calculate_confidence raw_prediction
      processed_output = PyFloat.f0_8
    /\ PyFloat.le PyFloat.f0_0
         (PredictionServiceImpl._calculate_confidence raw_prediction
            processed_output) = true
    /\ PyFloat.le
         (PredictionServiceImpl._calculate_confidence raw_prediction
            processed_output) PyFloat.f1_0 = true.
Proof. intros raw_prediction processed_output. repeat split. Qed.

(** ** The default preprocessor *)

Lemma mem_get {V : Type} (k : string) (d : list (string * V)) :
  Dict.mem k d = match Dict.get k d with Some _ => true | None => false end.
Proof. reflexivity. Qed.

(** C10.  On a mapping without the key ["product_id"], and on one that
    maps it to [None], [transform] of the default preprocessor raises a
    [PreprocessingError]; on a mapping that holds another value under
    ["product_id"] the validation of the required features returns. *)
Theorem product_id_is_required :
  forall (self : DefaultPreprocessor.t) (features : pydict),
    (Dict.get "product_id" features = None ->
     DefaultPreprocessor.transform self features
     = Raise (mkExn PreprocessingError "Failed to preprocess input features"
                    (Some "Required feature missing: product_id")))
    /\ (Dict.get "product_id" features = Some PNone ->
        DefaultPreprocessor.transform self features
        = Raise (mkExn PreprocessingError
                       "Failed to preprocess input features"
                       (Some "Feature cannot be null: product_id")))
    /\ (forall v : pyval,
          Dict.get "product_id" features = Some v -> v <> PNone ->
          DefaultPreprocessor._validate_features self features = Ok tt).
Proof.
  intros self features.
  unfold DefaultPreprocessor.transform, DefaultPreprocessor._validate_features,
    DefaultPreprocessor.required_features, DefaultPreprocessor.validate_required.
  rewrite mem_get. repeat split.
  - intros H. rewrite H. reflexivity.
  - intros H. rewrite H. reflexivity.
  - intros v H Hv. rewrite H. simpl. destruct v; congruence.
Qed.

Lemma product_id_is_required_witness :
  DefaultPreprocessor.transform (DefaultPreprocessor.init None)
    seasonal_features
  = Raise missing_product_id
  /\ DefaultPreprocessor.transform (DefaultPreprocessor.init None)
       [("product_id", PNone)]
     = Raise (mkExn PreprocessingError "Failed to preprocess input features"
                    (Some "Feature cannot be null: product_id"))
  /\ DefaultPreprocessor._validate_features (DefaultPreprocessor.init None)
       winter_features = Ok tt.
Proof.
  split; [| split].
  - apply (product_id_is_required (DefaultPreprocessor.init None)
             seasonal_features). reflexivity.
  - apply (product_id_is_required (DefaultPreprocessor.init None)
             [("product_id", PNone)]). reflexivity.
  - apply (proj2 (proj2 (product_id_is_required
                           (DefaultPreprocessor.init None) winter_features))
             (PStr "ABC123")); [reflexivity | discriminate].
Defined.

(** ** The HTTP boundary *)

(** The [except] clauses of [post_predict] choose the status of the table,
    from the kind alone. *)
Lemma post_predict_except_status (e : exn) :
  status_code (MCPPredictController.post_predict_except e)
  = status_table (kind e).
Proof.
  unfold MCPPredictController.post_predict_except, isinstance.
  destruct (kind e); reflexivity.
Qed.

(** C1.  When the prediction service raises an error [e] out of [predict],
    [post_predict] raises an [HTTPException] whose status is the one the
    table gives for the kind of [e]: 400 for [PreprocessingError] and
    [InvalidFeatureError], 503 for [ModelNotLoadedError] and
    [ModelPredictionError], 502 for [PostprocessingError], 500 for
    [PredictionServiceError] and for every other kind.  Any error of the
    same kind, whatever its message and details, gets the same status. *)
Theorem status_fixed_by_kind :
  forall (W : Type) (self : MCPPredictController.t W)
         (request : PredictionRequestSchema.t)
         (domain_request : PredictionRequest.t)
         (s s' : state W) (e : exn),
    PredictionRequest.new (PredictionRequestSchema.features request)
    = Ok domain_request ->
    recorded CallServicePredict
      (MCPPredictController._prediction_service self domain_request) s
    = (Raise e, s') ->
    exists h : HTTPException,
      MCPPredictController.post_predict self request s = (Raised h, s')
      /\ status_code h = status_table (kind e)
      /\ status_code h
         = match kind e with
           | PreprocessingError | InvalidFeatureError => 400
           | ModelNotLoadedError | ModelPredictionError => 503
           | PostprocessingError => 502
           | PredictionServiceError => 500
           | _ => 500
           end
      /\ (forall e' : exn,
            kind e' = kind e ->
            status_code (MCPPredictController.post_predict_except e')
            = status_code h).
Proof.
  intros W self request domain_request s s' e Hrequest Hraise.
  exists (MCPPredictController.post_predict_except e).
  split; [| split; [| split]].
  - unfold MCPPredictController.post_predict,
      MCPPredictController.post_predict_body, bind, lift.
    rewrite Hrequest. rewrite Hraise. reflexivity.
  - apply post_predict_except_status.
  - rewrite post_predict_except_status. reflexivity.
  - intros e' Hkind. rewrite !post_predict_except_status.
    now rewrite Hkind.
Qed.

Lemma status_fixed_by_kind_witness :
  exists h : HTTPException,
    MCPPredictController.post_predict
      (controller_of (service_around unfinished_model))
      (PredictionRequestSchema.mk winter_features) start
    = (Raised h,
       mkState tt [CallServicePredict; CallPreprocessorTransform;
                   CallModelPredict])
    /\ status_code h = 503.
Proof.
  destruct (status_fixed_by_kind unit
              (controller_of (service_around unfinished_model))
              (PredictionRequestSchema.mk winter_features)
              (PredictionRequest.mk winter_features)
              start
              (mkState tt [CallServicePredict; CallPreprocessorTransform;
                           CallModelPredict])
              (PredictionServiceImpl.prediction_failed not_implemented)
              eq_refl eq_refl)
    as (h & Hrun & Hstatus & _).
  exists h. split; [exact Hrun | exact Hstatus].
Defined.

(** C8.  Building a [PredictionRequest] from the empty mapping raises the
    validation error.  At the boundary, the route refuses a body whose
    features are the empty mapping while building its schema: nothing is
    called and the collaborators are untouched, whatever the controller and
    its service.  A controller handed such a schema all the same fails on
    building the entity, again before the service is called. *)
Theorem empty_features_rejected :
  PredictionRequest.new []
  = Raise (mkExn ValueError "Features dictionary cannot be empty" None)
  /\ (forall (W : Type)
             (prediction_controller : option (MCPPredictController.t W))
             (s : state W),
        predict_route prediction_controller [] s
        = (RequestValidationError
             (mkExn ValueError "Features dictionary cannot be empty" None),
           s))
  /\ (forall (W : Type) (self : MCPPredictController.t W) (s : state W),
        MCPPredictController.post_predict self
          (PredictionRequestSchema.mk []) s
        = (Raised (mkHTTPException 500
                     [("error", PStr "InternalServerError");
                      ("message", PStr "An unexpected error occurred");
                      ("details",
                       PStr "Features dictionary cannot be empty")]),
           s)).
Proof.
  split; [reflexivity |]. split.
  - intros W prediction_controller s. reflexivity.
  - intros W self s. reflexivity.
Qed.

(** ** The end-to-end scenario *)

(** C7.  The request of the scenario is a valid [PredictionRequest]; the
    default preprocessor lowers its strings and turns its list of sales
    into floats; with the model that returns [[150, 180, 200]] and version
    ["v1.0.0"], [predict] calls the four steps and returns a response that
    is equal, as [==] compares two responses, to the one with prediction
    [{"forecast": [150.0, 180.0, 200.0], "format": "json"}], confidence 0.8
    and model version ["v1.0.0"].  The forecast of the response holds the
    numbers as the model returned them, the integers 150, 180 and 200,
    each equal to its float. *)
Theorem scenario_response :
  PredictionRequest.new winter_features
  = Ok (PredictionRequest.mk winter_features)
  /\ DefaultPreprocessor.transform (DefaultPreprocessor.init None)
       winter_features
     = Ok normalized_winter_features
  /\ PredictionServiceImpl.predict (service_around forecast_model)
       (PredictionRequest.mk winter_features) start
     = (Ok int_forecast_response, mkState tt pipeline_order)
  /\ response_eq int_forecast_response float_forecast_response = true
  /\ py_eq (PredictionResponse.prediction int_forecast_response)
       (PDict [("forecast", PList [PFloat f150; PFloat f180; PFloat f200]);
               ("format", PStr "json")]) = true
  /\ PredictionResponse.prediction int_forecast_response
     = PDict [("forecast", PList [PInt 150; PInt 180; PInt 200]);
              ("format", PStr "json")]
  /\ PredictionResponse.confidence int_forecast_response = PyFloat.f0_8
  /\ PredictionResponse.model_version int_forecast_response = "v1.0.0"
  /\ float_items [PInt 150; PInt 180; PInt 200]
     = Ok [PFloat f150; PFloat f180; PFloat f200].
Proof. repeat split. Qed.

(** * Further properties of the code *)

(** ** Dictionaries *)

Lemma get_set_same {V : Type} (k : string) (v : V) (d : list (string * V)) :
  Dict.get k (Dict.set k v d) = Some v.
Proof.
  induction d as [| [k' v'] d IH]; simpl.
  - now rewrite String.eqb_refl.
  - destruct (String.eqb k k') eqn:E; simpl; rewrite E; [reflexivity | exact IH].
Qed.

Lemma get_set_other {V : Type} (k k' : string) (v : V) (d : list (string * V)) :
  k <> k' -> Dict.get k' (Dict.set k v d) = Dict.get k' d.
Proof.
  intros Hneq. induction d as [| [k0 v0] d IH]; simpl.
  - apply String.eqb_neq in Hneq. rewrite String.eqb_sym. now rewrite Hneq.
  - destruct (String.eqb k k0) eqn:E; simpl.
    + apply String.eqb_eq in E. subst k0.
      assert (String.eqb k' k = false) as ->; [| reflexivity].
      apply String.eqb_neq. congruence.
    + now rewrite IH.
Qed.

Lemma get_None_keys {V : Type} (k : string) (d : list (string * V)) :
  Dict.get k d = None <-> ~ In k (keys d).
Proof.
  induction d as [| [k' v'] d IH]; simpl.
  - tauto.
  - destruct (String.eqb k k') eqn:E.
    + apply String.eqb_eq in E. subst. split; [discriminate | tauto].
    + apply String.eqb_neq in E. rewrite IH. split.
      * intros H [H1 | H1]; [congruence | tauto].
      * tauto.
Qed.

Lemma get_app {V : Type} (k : string) (a b : list (string * V)) :
  Dict.get k (a ++ b)
  = match Dict.get k a with
    | Some v => Some v
    | None => Dict.get k b
    end.
Proof.
  induction a as [| [k' v'] a IH]; simpl; [reflexivity |].
  destruct (String.eqb k k'); [reflexivity | exact IH].
Qed.

Lemma set_fresh {V : Type} (k : string) (v : V) (d : list (string * V)) :
  Dict.get k d = None -> Dict.set k v d = d ++ [(k, v)].
Proof.
  induction d as [| [k' v'] d IH]; simpl; [reflexivity |].
  destruct (String.eqb k k'); [discriminate |].
  intros H. now rewrite IH.
Qed.

Lemma keys_set {V : Type} (k : string) (v : V) (d : list (string * V)) :
  keys (Dict.set k v d)
  = if Dict.mem k d then keys d else keys d ++ [k].
Proof.
  unfold Dict.mem, keys.
  induction d as [| [k' v'] d IH]; simpl; [reflexivity |].
  destruct (String.eqb k k') eqn:E; simpl; [reflexivity |].
  rewrite IH. destruct (Dict.get k d); reflexivity.
Qed.

Lemma NoDup_keys_set {V : Type} (k : string) (v : V) (d : list (string * V)) :
  NoDup (keys d) -> NoDup (keys (Dict.set k v d)).
Proof.
  intros H. rewrite keys_set. unfold Dict.mem.
  destruct (Dict.get k d) eqn:E; [exact H |].
  apply get_None_keys in E.
  apply NoDup_app; [exact H | constructor; [simpl; tauto | constructor] |].
  intros x Hx [<- | []]. contradiction.
Qed.

(** With distinct names, an item of the [dict] is what a lookup finds. *)
Lemma In_get {V : Type} (k : string) (v : V) (d : list (string * V)) :
  NoDup (keys d) -> In (k, v) d -> Dict.get k d = Some v.
Proof.
  induction d as [| [k' v'] d IH]; simpl; [tauto |].
  intros Hnd [H | H].
  - injection H as -> ->. now rewrite String.eqb_refl.
  - inversion Hnd as [| ? ? Hnotin Hnd']; subst.
    destruct (String.eqb k k') eqn:E.
    + apply String.eqb_eq in E. subst k'. exfalso. apply Hnotin.
      change k with (fst (k, v)). now apply in_map.
    + now apply IH.
Qed.

Lemma get_In {V : Type} (k : string) (v : V) (d : list (string * V)) :
  Dict.get k d = Some v -> In (k, v) d.
Proof.
  induction d as [| [k' v'] d IH]; simpl; [discriminate |].
  destruct (String.eqb k k') eqn:E.
  - apply String.eqb_eq in E. intros [= ->]. left. now subst.
  - intros H. right. now apply IH.
Qed.

(** ** The default preprocessor, function by function *)

Lemma lower_ascii_idempotent (c : ascii) :
  lower_ascii (lower_ascii c) = lower_ascii c.
Proof.
  destruct c as [b0 b1 b2 b3 b4 b5 b6 b7].
  destruct b0, b1, b2, b3, b4, b5, b6, b7; reflexivity.
Qed.

Lemma lower_idempotent (s : string) : lower (lower s) = lower s.
Proof.
  induction s as [| c s IH]; simpl; [reflexivity |].
  now rewrite lower_ascii_idempotent, IH.
Qed.

Lemma float_of_int_raises (n : Z) (e : exn) :
  float_of_int n = Raise e -> e = int_too_large.
Proof.
  unfold float_of_int. destruct (PyFloat.of_int n); [discriminate |].
  now intros [= <-].
Qed.

Lemma float_of_number_raises (v : pyval) (e : exn) :
  float_of_number v = Some (Raise e) -> e = int_too_large.
Proof.
  destruct v; simpl; try discriminate.
  intros [= H]. now apply float_of_int_raises in H.
Qed.

Lemma float_of_number_is_number (v : pyval) :
  is_number v = match float_of_number v with Some _ => true | None => false end.
Proof. destruct v; reflexivity. Qed.

Lemma float_items_raises (l : list pyval) (e : exn) :
  float_items l = Raise e -> e = int_too_large.
Proof.
  induction l as [| x l IH]; simpl; [discriminate |].
  destruct (float_of_number x) as [[f | e' | b] |] eqn:E; simpl.
  - destruct (float_items l) as [fs | e'' | b]; simpl; try discriminate.
    intros [= <-]. now apply IH.
  - intros [= <-]. now apply float_of_number_raises in E.
  - discriminate.
  - exact IH.
Qed.

Lemma float_items_fixed (l : list pyval) :
  forallb is_float l = true -> float_items l = Ok l.
Proof.
  induction l as [| x l IH]; simpl; [reflexivity |].
  intros H. apply andb_prop in H as [Hx Hl].
  destruct x; try discriminate. simpl. now rewrite (IH Hl).
Qed.

Lemma float_items_shape (l l' : list pyval) :
  float_items l = Ok l' ->
  forallb is_float l' = true
  /\ List.length l' = List.length (filter is_number l).
Proof.
  revert l'. induction l as [| x l IH]; simpl; intros l'.
  - intros [= <-]. split; reflexivity.
  - rewrite float_of_number_is_number.
    destruct (float_of_number x) as [[f | e' | b] |]; simpl.
    + destruct (float_items l) as [fs | e'' | b]; simpl; try discriminate.
      intros [= <-]. destruct (IH fs eq_refl) as [H1 H2].
      simpl. split; [exact H1 | now rewrite H2].
    + discriminate.
    + discriminate.
    + apply IH.
Qed.

Lemma normalize_value_raises (v : pyval) (e : exn) :
  DefaultPreprocessor.normalize_value v = Raise e -> e = int_too_large.
Proof.
  unfold DefaultPreprocessor.normalize_value.
  destruct (float_of_number v) as [[f | e' | b] |] eqn:E; simpl.
  - discriminate.
  - intros [= <-]. now apply float_of_number_raises in E.
  - discriminate.
  - destruct v; try discriminate.
    destruct (float_items l) as [fs | e'' | b] eqn:El; simpl;
      try discriminate.
    intros [= <-]. now apply float_items_raises in El.
Qed.

Lemma normalize_value_None (v : pyval) :
  DefaultPreprocessor.normalize_value v = Ok PNone -> v = PNone.
Proof.
  unfold DefaultPreprocessor.normalize_value.
  destruct v; simpl; try discriminate; try reflexivity.
  - destruct (float_of_int n); discriminate.
  - destruct (float_items l); discriminate.
Qed.

Lemma normalize_value_fixed (v v' : pyval) :
  DefaultPreprocessor.normalize_value v = Ok v' ->
  DefaultPreprocessor.normalize_value v' = Ok v'.
Proof.
  unfold DefaultPreprocessor.normalize_value.
  destruct v; simpl; try (intros [= <-]; reflexivity).
  - destruct (float_of_int n); simpl; try discriminate.
    intros [= <-]. reflexivity.
  - intros [= <-]. simpl. now rewrite lower_idempotent.
  - destruct (float_items l) as [fs | |] eqn:E; simpl; try discriminate.
    intros [= <-]. simpl.
    apply float_items_shape in E as [E _].
    now rewrite (float_items_fixed _ E).
Qed.

(** The loop of [_normalize_features] on items with distinct names, none
    of them yet in the [dict] under construction: the normalized items
    are appended in order. *)
Lemma normalize_items_appends (items acc r : pydict) :
  NoDup (keys items) ->
  (forall k, In k (keys items) -> Dict.get k acc = None) ->
  DefaultPreprocessor.normalize_items items acc = Ok r ->
  exists vs : pydict, r = acc ++ vs /\ Forall2 normalizes items vs.
Proof.
  revert acc r. induction items as [| [k v] items IH]; simpl; intros acc r Hnd Hfresh.
  - intros [= <-]. exists []. split; [now rewrite app_nil_r | constructor].
  - destruct (DefaultPreprocessor.normalize_value v) as [v' | e | b] eqn:Ev;
      simpl; try discriminate.
    inversion Hnd as [| ? ? Hnotin Hnd']; subst.
    rewrite (set_fresh k v' acc (Hfresh k (or_introl eq_refl))).
    intros Hrest. apply IH in Hrest as (vs & -> & Hvs); [| exact Hnd' |].
    + exists ((k, v') :: vs). split; [now rewrite <- app_assoc |].
      constructor; [split; [reflexivity | exact Ev] | exact Hvs].
    + intros k' Hk'. rewrite get_app, (Hfresh k' (or_intror Hk')). simpl.
      destruct (String.eqb k' k) eqn:E; [| reflexivity].
      apply String.eqb_eq in E. subst k'. contradiction.
Qed.

Lemma appends_normalize_items (items vs acc : pydict) :
  NoDup (keys items) ->
  (forall k, In k (keys items) -> Dict.get k acc = None) ->
  Forall2 normalizes items vs ->
  DefaultPreprocessor.normalize_items items acc = Ok (acc ++ vs).
Proof.
  intros Hnd Hfresh Hvs. revert acc Hnd Hfresh.
  induction Hvs as [| [k v] [k' v'] items vs [Hk Hv] Hvs IH];
    simpl; intros acc Hnd Hfresh.
  - now rewrite app_nil_r.
  - simpl in Hk, Hv. subst k'. rewrite Hv. simpl.
    inversion Hnd as [| ? ? Hnotin Hnd']; subst.
    rewrite (set_fresh k v' acc (Hfresh k (or_introl eq_refl))).
    rewrite IH; [now rewrite <- app_assoc | exact Hnd' |].
    intros k' Hk'. rewrite get_app, (Hfresh k' (or_intror Hk')). simpl.
    destruct (String.eqb k' k) eqn:E; [| reflexivity].
    apply String.eqb_eq in E. subst k'. contradiction.
Qed.

Lemma normalizes_keys (items vs : pydict) :
  Forall2 normalizes items vs -> keys vs = keys items.
Proof.
  induction 1 as [| x y items vs [Hk _] _ IH]; simpl; [reflexivity |].
  now rewrite IH, Hk.
Qed.

Lemma normalizes_fixed (items vs : pydict) :
  Forall2 normalizes items vs -> Forall2 normalizes vs vs.
Proof.
  induction 1 as [| x y items vs [_ Hv] _ IH]; constructor; [| exact IH].
  split; [reflexivity | now apply normalize_value_fixed in Hv].
Qed.

Lemma normalizes_get (items vs : pydict) (k : string) (v : pyval) :
  Forall2 normalizes items vs ->
  Dict.get k items = Some v ->
  exists v', Dict.get k vs = Some v'
             /\ DefaultPreprocessor.normalize_value v = Ok v'.
Proof.
  induction 1 as [| [k1 v1] [k2 v2] items vs [Hk Hv] _ IH]; simpl;
    [discriminate |].
  simpl in Hk, Hv. subst k2.
  destruct (String.eqb k k1); [| exact IH].
  intros [= <-]. now exists v2.
Qed.

Lemma normalize_items_raises (items acc : pydict) (e : exn) :
  DefaultPreprocessor.normalize_items items acc = Raise e ->
  e = int_too_large.
Proof.
  revert acc. induction items as [| [k v] items IH]; simpl; intros acc;
    [discriminate |].
  destruct (DefaultPreprocessor.normalize_value v) as [v' | e' | b] eqn:Ev;
    simpl.
  - apply IH.
  - intros [= <-]. now apply normalize_value_raises in Ev.
  - discriminate.
Qed.

(** The conversions raise nothing outside [Exception]. *)
Lemma float_of_number_no_base (v : pyval) (b : base_exn) :
  float_of_number v <> Some (RaiseBase b).
Proof.
  destruct v; simpl; try discriminate.
  unfold float_of_int. destruct (PyFloat.of_int n); discriminate.
Qed.

Lemma float_items_no_base (l : list pyval) (b : base_exn) :
  float_items l <> RaiseBase b.
Proof.
  induction l as [| x l IH]; simpl; [discriminate |].
  destruct (float_of_number x) as [[f | e | b'] |] eqn:E; simpl.
  - destruct (float_items l) as [fs | e | b'] eqn:El; simpl;
      try discriminate.
    intros [= <-]. now apply IH.
  - discriminate.
  - now apply float_of_number_no_base in E.
  - exact IH.
Qed.

Lemma normalize_value_no_base (v : pyval) (b : base_exn) :
  DefaultPreprocessor.normalize_value v <> RaiseBase b.
Proof.
  unfold DefaultPreprocessor.normalize_value.
  destruct (float_of_number v) as [[f | e | b'] |] eqn:E; simpl;
    try discriminate.
  - now apply float_of_number_no_base in E.
  - destruct v; try discriminate.
    destruct (float_items l) as [fs | e | b'] eqn:El; simpl;
      try discriminate.
    now apply float_items_no_base in El.
Qed.

Lemma normalize_items_no_base (items acc : pydict) (b : base_exn) :
  DefaultPreprocessor.normalize_items items acc <> RaiseBase b.
Proof.
  revert acc. induction items as [| [k v] items IH]; simpl; intros acc;
    [discriminate |].
  destruct (DefaultPreprocessor.normalize_value v) as [v' | e | b'] eqn:Ev;
    simpl.
  - apply IH.
  - discriminate.
  - now apply normalize_value_no_base in Ev.
Qed.

Lemma validate_no_base (self : DefaultPreprocessor.t) (features : pydict)
      (b : base_exn) :
  DefaultPreprocessor._validate_features self features <> RaiseBase b.
Proof.
  unfold DefaultPreprocessor._validate_features,
    DefaultPreprocessor.required_features,
    DefaultPreprocessor.validate_required, Dict.mem.
  destruct (Dict.get "product_id" features) as [v |]; simpl;
    [destruct v |]; discriminate.
Qed.

(** [transform] of the default preprocessor raises nothing outside
    [Exception]. *)
Lemma preprocessor_no_base (self : DefaultPreprocessor.t) (features : pydict)
      (b : base_exn) :
  DefaultPreprocessor.transform self features <> RaiseBase b.
Proof.
  unfold DefaultPreprocessor.transform, DefaultPreprocessor._normalize_features,
    try_except.
  destruct (DefaultPreprocessor._validate_features self features)
    as [[] | e | b'] eqn:Ev; simpl.
  - destruct (DefaultPreprocessor.normalize_items _ _) as [d | e | b'] eqn:En;
      simpl; try discriminate.
    now apply normalize_items_no_base in En.
  - discriminate.
  - now apply validate_no_base in Ev.
Qed.

Lemma validate_returns (self : DefaultPreprocessor.t) (features : pydict) :
  DefaultPreprocessor._validate_features self features = Ok tt
  <-> exists v, Dict.get "product_id" features = Some v /\ v <> PNone.
Proof.
  unfold DefaultPreprocessor._validate_features,
    DefaultPreprocessor.required_features,
    DefaultPreprocessor.validate_required, Dict.mem.
  destruct (Dict.get "product_id" features) as [v |]; simpl.
  - split.
    + intros H. exists v. split; [reflexivity |].
      intros ->. discriminate.
    + intros (v' & [= <-] & H). destruct v; try reflexivity. contradiction.
  - split; [discriminate | intros (v & H & _); discriminate].
Qed.

Lemma validate_raises (self : DefaultPreprocessor.t) (features : pydict)
      (e : exn) :
  DefaultPreprocessor._validate_features self features = Raise e ->
  e = mkExn PreprocessingError "Required feature missing: product_id" None
  \/ e = mkExn PreprocessingError "Feature cannot be null: product_id" None.
Proof.
  unfold DefaultPreprocessor._validate_features,
    DefaultPreprocessor.required_features,
    DefaultPreprocessor.validate_required, Dict.mem.
  destruct (Dict.get "product_id" features) as [v |]; simpl.
  - destruct v; try discriminate. intros [= <-]. now right.
  - intros [= <-]. now left.
Qed.

(** What [transform] went through when it returns. *)
Lemma preprocessor_returns (self : DefaultPreprocessor.t)
      (features : pydict) (out : pyval) :
  DefaultPreprocessor.transform self features = Ok out <->
  DefaultPreprocessor._validate_features self features = Ok tt
  /\ exists d,
       DefaultPreprocessor.normalize_items
         (DefaultPreprocessor._apply_feature_mapping self features) [] = Ok d
       /\ out = PDict d.
Proof.
  unfold DefaultPreprocessor.transform, DefaultPreprocessor._normalize_features,
    try_except.
  destruct (DefaultPreprocessor._validate_features self features)
    as [[] | e | b]; simpl.
  - destruct (DefaultPreprocessor.normalize_items _ _) as [d | e | b]; simpl.
    + split.
      * intros [= <-]. split; [reflexivity | now exists d].
      * intros (_ & d' & [= <-] & ->). reflexivity.
    + split; [discriminate | intros (_ & d' & H & _); discriminate].
    + split; [discriminate | intros (_ & d' & H & _); discriminate].
  - split; [discriminate | intros (H & _); discriminate].
  - split; [discriminate | intros (H & _); discriminate].
Qed.

Lemma find_append {A : Type} (p : A -> bool) (a b : list A) :
  find p (a ++ b)
  = match find p a with
    | Some x => Some x
    | None => find p b
    end.
Proof.
  induction a as [| x a IH]; simpl; [reflexivity |].
  destruct (p x); [reflexivity | exact IH].
Qed.

(** The loop of [_apply_feature_mapping]: a lookup finds the last item
    filed under the name, or what the [dict] held before. *)
Lemma map_names_get (mapping : list (string * string)) (items acc : pydict)
      (name : string) :
  Dict.get name (DefaultPreprocessor.map_names mapping items acc)
  = match last_mapped mapping name items with
    | Some v => Some v
    | None => Dict.get name acc
    end.
Proof.
  unfold last_mapped. revert acc.
  induction items as [| [k v] items IH]; simpl; intros acc; [reflexivity |].
  rewrite IH. fold (mapped_name mapping k).
  rewrite find_append.
  destruct (find _ (rev items)) as [item |]; simpl; [reflexivity |].
  destruct (String.eqb name (mapped_name mapping k)) eqn:E; simpl.
  - apply String.eqb_eq in E. subst name. apply get_set_same.
  - apply String.eqb_neq in E. apply get_set_other. congruence.
Qed.

Lemma map_names_NoDup (mapping : list (string * string)) (items acc : pydict) :
  NoDup (keys acc) ->
  NoDup (keys (DefaultPreprocessor.map_names mapping items acc)).
Proof.
  revert acc. induction items as [| [k v] items IH]; simpl; intros acc H;
    [exact H |].
  apply IH. now apply NoDup_keys_set.
Qed.

Lemma apply_feature_mapping_NoDup (self : DefaultPreprocessor.t)
      (features : pydict) :
  NoDup (keys features) ->
  NoDup (keys (DefaultPreprocessor._apply_feature_mapping self features)).
Proof.
  intros H. unfold DefaultPreprocessor._apply_feature_mapping.
  destruct (Dict.is_empty _); [exact H |].
  apply map_names_NoDup. constructor.
Qed.

(** X1.  Whatever makes [transform] of the default preprocessor fail, the
    caller sees a [PreprocessingError] with the fixed message, and its
    details are one of three texts: the required feature is missing, the
    required feature is null, or an integer is too large for a float. *)
Theorem preprocessor_failure_details :
  forall (self : DefaultPreprocessor.t) (features : pydict) (e : exn),
    DefaultPreprocessor.transform self features = Raise e ->
    kind e = PreprocessingError
    /\ message e = "Failed to preprocess input features"
    /\ (details e = Some "Required feature missing: product_id"
        \/ details e = Some "Feature cannot be null: product_id"
        \/ details e = Some "int too large to convert to float").
Proof.
  intros self features e.
  unfold DefaultPreprocessor.transform, DefaultPreprocessor._normalize_features,
    try_except.
  destruct (DefaultPreprocessor._validate_features self features)
    as [[] | e1 | b1] eqn:Ev; simpl.
  - destruct (DefaultPreprocessor.normalize_items _ _) as [d | e2 | b2] eqn:En;
      simpl; try discriminate.
    intros [= <-]. apply normalize_items_raises in En. subst e2.
    repeat split. right. right. reflexivity.
  - intros [= <-]. repeat split.
    destruct (validate_raises _ _ _ Ev) as [-> | ->]; simpl; tauto.
  - discriminate.
Qed.

Lemma preprocessor_failure_details_witness :
  kind (mkExn PreprocessingError "Failed to preprocess input features"
              (Some (str_exn int_too_large))) = PreprocessingError
  /\ message (mkExn PreprocessingError "Failed to preprocess input features"
                    (Some (str_exn int_too_large)))
     = "Failed to preprocess input features"
  /\ (details (mkExn PreprocessingError "Failed to preprocess input features"
                     (Some (str_exn int_too_large)))
      = Some "Required feature missing: product_id"
      \/ details (mkExn PreprocessingError
                        "Failed to preprocess input features"
                        (Some (str_exn int_too_large)))
         = Some "Feature cannot be null: product_id"
      \/ details (mkExn PreprocessingError
                        "Failed to preprocess input features"
                        (Some (str_exn int_too_large)))
         = Some "int too large to convert to float").
Proof.
  apply (preprocessor_failure_details (DefaultPreprocessor.init None)
           overflowing_features).
  vm_compute. reflexivity.
Defined.



(** X3.  Without a feature mapping, on features with distinct names, a
    successful [transform] returns a [dict] with the same names in the
    same order; when the features that are strings are ASCII, each value
    of the result is the normalized value of the feature of that name,
    whatever the other features are. *)
Theorem preprocessing_keeps_names :
  forall (self : DefaultPreprocessor.t) (features : pydict) (out : pyval),
    DefaultPreprocessor._feature_mapping self = [] ->
    NoDup (keys features) ->
    DefaultPreprocessor.transform self features = Ok out ->
    exists d : pydict,
      out = PDict d
      /\ keys d = keys features
      /\ (forallb (fun item => ascii_value (snd item)) features = true ->
          Forall2 normalizes features d).
Proof.
  intros self features out Hmap Hnd Hout.
  apply preprocessor_returns in Hout as (_ & d & Hd & ->).
  unfold DefaultPreprocessor._apply_feature_mapping in Hd.
  rewrite Hmap in Hd. simpl in Hd.
  apply normalize_items_appends in Hd as (vs & -> & Hvs);
    [| exact Hnd | reflexivity].
  exists vs. split; [reflexivity |].
  split; [now apply normalizes_keys | intros _; exact Hvs].
Qed.

Lemma preprocessing_keeps_names_witness :
  exists d : pydict,
    normalized_winter_features = PDict d
    /\ keys d = keys winter_features
    /\ Forall2 normalizes winter_features d.
Proof.
  destruct (preprocessing_keeps_names (DefaultPreprocessor.init None)
              winter_features normalized_winter_features)
    as (d & Hd & Hkeys & Hvalues).
  - reflexivity.
  - repeat constructor; simpl; intuition discriminate.
  - reflexivity.
  - exists d. split; [exact Hd |]. split; [exact Hkeys |].
    apply Hvalues. reflexivity.
Defined.

(** X4.  Without a feature mapping, preprocessing is idempotent: feeding
    the [dict] a successful [transform] returned to [transform] again
    returns that [dict] unchanged. *)
Theorem preprocessing_is_idempotent :
  forall (self : DefaultPreprocessor.t) (features d : pydict),
    DefaultPreprocessor._feature_mapping self = [] ->
    NoDup (keys features) ->
    DefaultPreprocessor.transform self features = Ok (PDict d) ->
    DefaultPreprocessor.transform self d = Ok (PDict d).
Proof.
  intros self features d Hmap Hnd Hout.
  apply preprocessor_returns in Hout as (Hval & d' & Hd & [= <-]).
  unfold DefaultPreprocessor._apply_feature_mapping in Hd.
  rewrite Hmap in Hd. simpl in Hd.
  apply normalize_items_appends in Hd as (vs & -> & Hvs);
    [| exact Hnd | reflexivity].
  simpl. apply preprocessor_returns. split.
  - apply validate_returns in Hval as (v & Hv & Hnone).
    destruct (normalizes_get _ _ _ _ Hvs Hv) as (v' & Hv' & Hnorm).
    apply validate_returns. exists v'. split; [exact Hv' |].
    intros ->. now apply normalize_value_None in Hnorm.
  - exists vs. split; [| reflexivity].
    unfold DefaultPreprocessor._apply_feature_mapping. rewrite Hmap. simpl.
    apply (appends_normalize_items vs vs []).
    + rewrite (normalizes_keys _ _ Hvs). exact Hnd.
    + reflexivity.
    + now apply normalizes_fixed in Hvs.
Qed.

Lemma preprocessing_is_idempotent_witness :
  DefaultPreprocessor.transform (DefaultPreprocessor.init None)
    [("product_id", PStr "abc123");
     ("historical_sales",
      PList [PFloat (S754_finite false 7036874417766400 (-46));
             PFloat (S754_finite false 8444249301319680 (-46));
             PFloat (S754_finite false 6685030696878080 (-46))]);
     ("season", PStr "winter")]
  = Ok normalized_winter_features.
Proof.
  apply (preprocessing_is_idempotent (DefaultPreprocessor.init None)
           winter_features).
  - reflexivity.
  - repeat constructor; simpl; intuition discriminate.
  - reflexivity.
Defined.

(** X5.  With a feature mapping, a feature is filed under the name the
    mapping gives it, or under its own name when the mapping does not
    mention it; when several features are filed under one name, a lookup
    finds the value of the last of them, and a name under which nothing is
    filed is absent. *)
Theorem feature_mapping_last_wins :
  forall (self : DefaultPreprocessor.t) (features : pydict) (name : string),
    DefaultPreprocessor._feature_mapping self <> [] ->
    Dict.get name (DefaultPreprocessor._apply_feature_mapping self features)
    = last_mapped (DefaultPreprocessor._feature_mapping self) name features.
Proof.
  intros self features name Hmap.
  unfold DefaultPreprocessor._apply_feature_mapping.
  destruct (DefaultPreprocessor._feature_mapping self) as [| m ms] eqn:E;
    [contradiction |].
  simpl Dict.is_empty. cbv iota. rewrite map_names_get.
  destruct (last_mapped (m :: ms) name features); reflexivity.
Qed.

Lemma feature_mapping_last_wins_witness :
  Dict.get "units"
    (DefaultPreprocessor._apply_feature_mapping
       (DefaultPreprocessor.init (Some sales_mapping)) sales_features)
  = Some (PInt 5).
Proof.
  rewrite (feature_mapping_last_wins
             (DefaultPreprocessor.init (Some sales_mapping))
             sales_features "units").
  - reflexivity.
  - discriminate.
Defined.

(** X6.  Whatever the feature mapping, on features with distinct names a
    successful [transform] returns a [dict] whose names are distinct. *)
Theorem preprocessed_names_distinct :
  forall (self : DefaultPreprocessor.t) (features : pydict) (out : pyval),
    NoDup (keys features) ->
    DefaultPreprocessor.transform self features = Ok out ->
    exists d : pydict, out = PDict d /\ NoDup (keys d).
Proof.
  intros self features out Hnd Hout.
  apply preprocessor_returns in Hout as (_ & d & Hd & ->).
  pose proof (apply_feature_mapping_NoDup self features Hnd) as Hnd'.
  apply normalize_items_appends in Hd as (vs & -> & Hvs);
    [| exact Hnd' | reflexivity].
  exists vs. split; [reflexivity |].
  simpl. now rewrite (normalizes_keys _ _ Hvs).
Qed.

Lemma preprocessed_names_distinct_witness :
  exists d : pydict,
    PDict [("product_id", PStr "abc123");
           ("units", PFloat (S754_finite false 5629499534213120 (-50)))]
    = PDict d
    /\ NoDup (keys d).
Proof.
  apply (preprocessed_names_distinct
           (DefaultPreprocessor.init (Some sales_mapping)) sales_features).
  - repeat constructor; simpl; intuition discriminate.
  - reflexivity.
Defined.

(** ** The default postprocessor *)

Lemma postprocessor_returns (self : DefaultPostprocessor.t)
      (raw_output out : pyval) :
  DefaultPostprocessor.transform self raw_output = Ok out <->
  raw_output <> PNone
  /\ exists fmt,
       DefaultPostprocessor._format_output self raw_output = Ok fmt
       /\ out = PDict (DefaultPostprocessor._enrich_output self fmt).
Proof.
  unfold DefaultPostprocessor.transform, try_except.
  destruct raw_output as [| b | n | f | s | l | l | d0 | r]; simpl;
    try (split;
         [intros [= <-]; split; [discriminate | eexists; split; reflexivity]
         | intros (_ & fmt & [= <-] & ->); reflexivity]).
  - split; [discriminate | intros (H & _); contradiction].
  - unfold float_of_int. destruct (PyFloat.of_int n) as [f |]; simpl.
    + split.
      * intros [= <-]. split; [discriminate | eexists; split; reflexivity].
      * intros (_ & fmt & [= <-] & ->). reflexivity.
    + split; [discriminate | intros (_ & fmt & H & _); discriminate].
Qed.

(** [transform] of the default postprocessor raises nothing outside
    [Exception]. *)
Lemma postprocessor_no_base (self : DefaultPostprocessor.t)
      (raw_output : pyval) (b : base_exn) :
  DefaultPostprocessor.transform self raw_output <> RaiseBase b.
Proof.
  unfold DefaultPostprocessor.transform, try_except.
  destruct raw_output as [| b' | n | f | s | l | l | d0 | r]; simpl;
    try discriminate.
  unfold float_of_int. destruct (PyFloat.of_int n); discriminate.
Qed.

(** X7.  Every output the default postprocessor returns is a [dict] whose
    ["format"] entry is the configured output format; when the model
    itself returned a [dict], its other entries are kept and a ["format"]
    entry of its own is overwritten. *)
Theorem postprocessor_sets_format :
  forall (self : DefaultPostprocessor.t) (raw_output out : pyval),
    DefaultPostprocessor.transform self raw_output = Ok out ->
    exists d : pydict,
      out = PDict d
      /\ Dict.get "format" d
         = Some (PStr (DefaultPostprocessor._output_format self))
      /\ (forall d0 : pydict,
            raw_output = PDict d0 ->
            forall k : string, k <> "format" -> Dict.get k d = Dict.get k d0).
Proof.
  intros self raw_output out Hout.
  apply postprocessor_returns in Hout as (_ & d & Hd & ->).
  exists (DefaultPostprocessor._enrich_output self d).
  split; [reflexivity |]. unfold DefaultPostprocessor._enrich_output.
  split; [apply get_set_same |].
  intros d0 -> k Hk. simpl in Hd. injection Hd as <-.
  apply get_set_other. congruence.
Qed.

Lemma postprocessor_sets_format_witness :
  exists d : pydict,
    PDict [("format", PStr "json"); ("units", PInt 7)] = PDict d
    /\ Dict.get "format" d = Some (PStr "json")
    /\ (forall d0 : pydict,
          PDict [("format", PStr "csv"); ("units", PInt 7)] = PDict d0 ->
          forall k : string, k <> "format" -> Dict.get k d = Dict.get k d0).
Proof.
  apply (postprocessor_sets_format (DefaultPostprocessor.init None)
           (PDict [("format", PStr "csv"); ("units", PInt 7)])).
  reflexivity.
Defined.

(** X8.  The default postprocessor fails on exactly two outputs: [None],
    and an [int] too large for a float.  The caller then sees a
    [PostprocessingError] with the fixed message, whose details name the
    cause. *)
Theorem postprocessor_failure_cases :
  forall (self : DefaultPostprocessor.t) (raw_output : pyval),
    ((exists e, DefaultPostprocessor.transform self raw_output = Raise e)
     <-> raw_output = PNone
         \/ exists n, raw_output = PInt n /\ PyFloat.of_int n = None)
    /\ (forall e : exn,
          DefaultPostprocessor.transform self raw_output = Raise e ->
          kind e = PostprocessingError
          /\ message e = "Failed to postprocess model output"
          /\ details e
             = Some (if is_number raw_output
                     then "int too large to convert to float"
                     else "Model output cannot be null")).
Proof.
  intros self raw_output. unfold DefaultPostprocessor.transform, try_except.
  destruct raw_output as [| b | n | f | s | l | l | d0 | r]; simpl;
    try (split;
         [split;
          [intros (e & H); discriminate
          | intros [H | (n' & H & _)]; discriminate]
         | intros e H; discriminate]).
  - split.
    + split; [intros _; now left | intros _; eexists; reflexivity].
    + intros e [= <-]. repeat split.
  - unfold float_of_int. destruct (PyFloat.of_int n) as [f |] eqn:E; simpl.
    + split.
      * split; [intros (e & H); discriminate |].
        intros [H | (n' & [= <-] & H)]; [discriminate | congruence].
      * intros e H; discriminate.
    + split.
      * split; [intros _; right; now exists n | intros _; eexists; reflexivity].
      * intros e [= <-]. repeat split.
Qed.

(** X9.  A [list] or a [tuple] returned by the model is never refused and
    comes out as a [list] under ["forecast"] with its elements as they
    were, whatever they are, beside the ["format"] entry. *)
Theorem postprocessor_keeps_sequence :
  forall (self : DefaultPostprocessor.t) (l : list pyval),
    DefaultPostprocessor.transform self (PList l)
    = Ok (PDict [("forecast", PList l);
                 ("format", PStr (DefaultPostprocessor._output_format self))])
    /\ DefaultPostprocessor.transform self (PTuple l)
       = DefaultPostprocessor.transform self (PList l).
Proof. intros self l. split; reflexivity. Qed.

Lemma postprocessor_failure_cases_witness :
  kind (mkExn PostprocessingError "Failed to postprocess model output"
              (Some (str_exn int_too_large))) = PostprocessingError
  /\ message (mkExn PostprocessingError "Failed to postprocess model output"
                    (Some (str_exn int_too_large)))
     = "Failed to postprocess model output"
  /\ details (mkExn PostprocessingError "Failed to postprocess model output"
                    (Some (str_exn int_too_large)))
     = Some (if is_number (PInt huge)
             then "int too large to convert to float"
             else "Model output cannot be null").
Proof.
  apply (proj2 (postprocessor_failure_cases (DefaultPostprocessor.init None)
                  (PInt huge))).
  vm_compute. reflexivity.
Defined.

(** ** The orchestrator: outcomes of [predict] *)

(** With the placeholder confidence, building the response can fail on
    the version only. *)
Lemma response_with_placeholder (raw out : pyval) (v : string) :
  PredictionResponse.new out
    (PredictionServiceImpl._calculate_confidence raw out) v
  = if String.eqb v "" then Raise empty_version
    else Ok (PredictionResponse.mk out PyFloat.f0_8 v).
Proof. reflexivity. Qed.

(** The five ways a run of [predict] can go. *)
Lemma predict_cases {W : Type} (self : PredictionServiceImpl.t W)
      (request : PredictionRequest.t) (s : state W) :
  (exists e w1,
      preprocessor_transform (PredictionServiceImpl._preprocessor self)
        (PredictionRequest.features request) (world s) = (Raise e, w1)
      /\ PredictionServiceImpl.predict self request s
         = (Raise (PredictionServiceImpl.preprocessing_failed e),
            mkState w1 (calls s ++ firstn 1 pipeline_order)))
  \/ (exists x e w1 w2,
        preprocessor_transform (PredictionServiceImpl._preprocessor self)
          (PredictionRequest.features request) (world s) = (Ok x, w1)
        /\ model_predict (PredictionServiceImpl._model self) x w1
           = (Raise e, w2)
        /\ PredictionServiceImpl.predict self request s
           = (Raise (PredictionServiceImpl.prediction_failed e),
              mkState w2 (calls s ++ firstn 2 pipeline_order)))
  \/ (exists x raw e w1 w2 w3,
        preprocessor_transform (PredictionServiceImpl._preprocessor self)
          (PredictionRequest.features request) (world s) = (Ok x, w1)
        /\ model_predict (PredictionServiceImpl._model self) x w1
           = (Ok raw, w2)
        /\ model_version (PredictionServiceImpl._model self) w2
           = (Raise e, w3)
        /\ PredictionServiceImpl.predict self request s
           = (Raise (PredictionServiceImpl.prediction_failed e),
              mkState w3 (calls s ++ firstn 3 pipeline_order)))
  \/ (exists x raw v e w1 w2 w3 w4,
        preprocessor_transform (PredictionServiceImpl._preprocessor self)
          (PredictionRequest.features request) (world s) = (Ok x, w1)
        /\ model_predict (PredictionServiceImpl._model self) x w1
           = (Ok raw, w2)
        /\ model_version (PredictionServiceImpl._model self) w2 = (Ok v, w3)
        /\ postprocessor_transform
             (PredictionServiceImpl._postprocessor self) raw w3
           = (Raise e, w4)
        /\ PredictionServiceImpl.predict self request s
           = (Raise (PredictionServiceImpl.postprocessing_failed e),
              mkState w4 (calls s ++ pipeline_order)))
  \/ (exists x raw v out w1 w2 w3 w4,
        preprocessor_transform (PredictionServiceImpl._preprocessor self)
          (PredictionRequest.features request) (world s) = (Ok x, w1)
        /\ model_predict (PredictionServiceImpl._model self) x w1
           = (Ok raw, w2)
        /\ model_version (PredictionServiceImpl._model self) w2 = (Ok v, w3)
        /\ postprocessor_transform
             (PredictionServiceImpl._postprocessor self) raw w3
           = (Ok out, w4)
        /\ PredictionServiceImpl.predict self request s
           = (if String.eqb v ""
              then Raise (mkExn PredictionServiceError
                                "Unexpected error during prediction"
                                (Some "Model version cannot be empty"))
              else Ok (PredictionResponse.mk out PyFloat.f0_8 v),
              mkState w4 (calls s ++ pipeline_order)))
  \/ (exists b s',
        PredictionServiceImpl.predict self request s = (RaiseBase b, s')
        /\ raised_by_collaborator self request s b).
Proof.
  unfold raised_by_collaborator.
  destruct (preprocessor_transform (PredictionServiceImpl._preprocessor self)
              (PredictionRequest.features request) (world s))
    as [[x | e1 | b1] w1] eqn:H1.
  2:{ left. exists e1, w1. split; [reflexivity |].
      apply (predict_pre_raises _ _ _ _ _ H1). }
  2:{ do 5 right. eexists. eexists.
      split; [apply (predict_pre_escapes _ _ _ _ _ H1) |].
      left. now exists w1. }
  destruct (model_predict (PredictionServiceImpl._model self) x w1)
    as [[raw | e2 | b2] w2] eqn:H2.
  2:{ right; left. exists x, e2, w1, w2. repeat split; try assumption.
      apply (predict_infer_raises _ _ _ _ _ _ _ H1 H2). }
  2:{ do 5 right. eexists. eexists.
      split; [apply (predict_infer_escapes _ _ _ _ _ _ _ H1 H2) |].
      right; left. exists x, w1, w2. now split. }
  destruct (model_version (PredictionServiceImpl._model self) w2)
    as [[v | e3 | b3] w3] eqn:H3.
  2:{ right; right; left. exists x, raw, e3, w1, w2, w3.
      repeat split; try assumption.
      apply (predict_version_raises _ _ _ _ _ _ _ _ _ H1 H2 H3). }
  2:{ do 5 right. eexists. eexists.
      split; [apply (predict_version_escapes _ _ _ _ _ _ _ _ _ H1 H2 H3) |].
      right; right; left. exists x, raw, w1, w2, w3. now repeat split. }
  destruct (postprocessor_transform
              (PredictionServiceImpl._postprocessor self) raw w3)
    as [[out | e4 | b4] w4] eqn:H4.
  2:{ right; right; right; left. exists x, raw, v, e4, w1, w2, w3, w4.
      repeat split; try assumption.
      apply (predict_post_raises _ _ _ _ _ _ _ _ _ _ _ H1 H2 H3 H4). }
  2:{ do 5 right. eexists. eexists.
      split; [apply (predict_post_escapes _ _ _ _ _ _ _ _ _ _ _ H1 H2 H3 H4) |].
      right; right; right. exists x, raw, v, w1, w2, w3, w4.
      now repeat split. }
  right; right; right; right; left. exists x, raw, v, out, w1, w2, w3, w4.
  repeat split; try assumption.
  rewrite (predict_steps_return _ _ _ _ _ _ _ _ _ _ _ H1 H2 H3 H4).
  rewrite response_with_placeholder. destruct (String.eqb v ""); reflexivity.
Qed.

(** X10.  A response returned by [predict] carries the postprocessor's
    output as prediction, the model's version, which is not empty, and the
    confidence 0.8, which lies between 0.0 and 1.0.  All four calls were
    made, each on what the call before it returned and on the state it
    left. *)
Theorem prediction_response_shape :
  forall (W : Type) (self : PredictionServiceImpl.t W)
         (request : PredictionRequest.t) (s s' : state W)
         (r : PredictionResponse.t),
    PredictionServiceImpl.predict self request s = (Ok r, s') ->
    PredictionResponse.confidence r = PyFloat.f0_8
    /\ PyFloat.le PyFloat.f0_0 (PredictionResponse.confidence r) = true
    /\ PyFloat.le (PredictionResponse.confidence r) PyFloat.f1_0 = true
    /\ PredictionResponse.model_version r <> ""
    /\ calls s' = calls s ++ pipeline_order
    /\ exists (x raw : pyval) (w1 w2 w3 : W),
         preprocessor_transform (PredictionServiceImpl._preprocessor self)
           (PredictionRequest.features request) (world s) = (Ok x, w1)
         /\ model_predict (PredictionServiceImpl._model self) x w1
            = (Ok raw, w2)
         /\ model_version (PredictionServiceImpl._model self) w2
            = (Ok (PredictionResponse.model_version r), w3)
         /\ postprocessor_transform
              (PredictionServiceImpl._postprocessor self) raw w3
            = (Ok (PredictionResponse.prediction r), world s').
Proof.
  intros W self request s s' r Hrun.
  destruct (predict_cases self request s)
    as [(e & w1 & _ & H)
       | [(x & e & w1 & w2 & _ & _ & H)
         | [(x & raw & e & w1 & w2 & w3 & _ & _ & _ & H)
           | [(x & raw & v & e & w1 & w2 & w3 & w4 & _ & _ & _ & _ & H)
             | [(x & raw & v & out & w1 & w2 & w3 & w4 & H1 & H2 & H3 & H4 & H)
               | (b & sb & H & _)]]]]];
    rewrite H in Hrun; try discriminate.
  destruct (String.eqb v "") eqn:Ev; [discriminate |].
  injection Hrun as <- <-. simpl.
  split; [reflexivity |]. split; [reflexivity |]. split; [reflexivity |].
  split; [now apply String.eqb_neq |]. split; [reflexivity |].
  exists x, raw, w1, w2, w3. repeat split; assumption.
Qed.

Lemma prediction_response_shape_witness :
  PredictionResponse.confidence int_forecast_response = PyFloat.f0_8
  /\ PyFloat.le PyFloat.f0_0 (PredictionResponse.confidence
                                int_forecast_response) = true
  /\ PyFloat.le (PredictionResponse.confidence int_forecast_response)
       PyFloat.f1_0 = true
  /\ PredictionResponse.model_version int_forecast_response <> ""
  /\ calls (mkState tt pipeline_order) = calls start ++ pipeline_order
  /\ exists (x raw : pyval) (w1 w2 w3 : unit),
       preprocessor_transform
         (PredictionServiceImpl._preprocessor (service_around forecast_model))
         (PredictionRequest.features (PredictionRequest.mk winter_features))
         (world start) = (Ok x, w1)
       /\ model_predict
            (PredictionServiceImpl._model (service_around forecast_model))
            x w1 = (Ok raw, w2)
       /\ model_version
            (PredictionServiceImpl._model (service_around forecast_model)) w2
          = (Ok (PredictionResponse.model_version int_forecast_response), w3)
       /\ postprocessor_transform
            (PredictionServiceImpl._postprocessor
               (service_around forecast_model)) raw w3
          = (Ok (PredictionResponse.prediction int_forecast_response),
             world (mkState tt pipeline_order)).
Proof.
  apply (prediction_response_shape unit (service_around forecast_model)
           (PredictionRequest.mk winter_features) start
           (mkState tt pipeline_order) int_forecast_response).
  reflexivity.
Defined.

(** X11.  What leaves [predict] as an exception is of two sorts.  An
    exception that derives from [Exception] is of one of the four kinds
    [PreprocessingError], [ModelPredictionError], [PostprocessingError]
    and [PredictionServiceError], with the fixed message of its kind, and
    always with details.  An exception that does not derive from
    [Exception] ([KeyboardInterrupt], [SystemExit], ...) is the one that a
    collaborator raised, the calls before it having returned: [predict]
    lets it through as it is. *)
Theorem predict_raises_four_kinds :
  forall (W : Type) (self : PredictionServiceImpl.t W)
         (request : PredictionRequest.t) (s : state W),
    match PredictionServiceImpl.predict self request s with
    | (Ok _, _) => True
    | (Raise e, _) =>
        In (kind e, message e)
           [(PreprocessingError, "Failed to preprocess input features");
            (ModelPredictionError, "Failed to execute model prediction");
            (PostprocessingError, "Failed to postprocess model output");
            (PredictionServiceError, "Unexpected error during prediction")]
        /\ details e <> None
    | (RaiseBase b, _) => raised_by_collaborator self request s b
    end.
Proof.
  intros W self request s.
  destruct (predict_cases self request s)
    as [(e0 & w1 & _ & H)
       | [(x & e0 & w1 & w2 & _ & _ & H)
         | [(x & raw & e0 & w1 & w2 & w3 & _ & _ & _ & H)
           | [(x & raw & v & e0 & w1 & w2 & w3 & w4 & _ & _ & _ & _ & H)
             | [(x & raw & v & out & w1 & w2 & w3 & w4 & _ & _ & _ & _ & H)
               | (b & sb & H & Hb)]]]]];
    rewrite H.
  5: destruct (String.eqb v ""); [| exact I].
  6: exact Hb.
  all: simpl; split; [tauto | discriminate].
Qed.

Lemma predict_raises_four_kinds_witness :
  (In (kind (PredictionServiceImpl.prediction_failed not_implemented),
       message (PredictionServiceImpl.prediction_failed not_implemented))
      [(PreprocessingError, "Failed to preprocess input features");
       (ModelPredictionError, "Failed to execute model prediction");
       (PostprocessingError, "Failed to postprocess model output");
       (PredictionServiceError, "Unexpected error during prediction")]
   /\ details (PredictionServiceImpl.prediction_failed not_implemented)
      <> None)
  /\ raised_by_collaborator (interrupted_service keyboard_interrupt)
       (PredictionRequest.mk winter_features) start keyboard_interrupt.
Proof.
  split.
  - exact (predict_raises_four_kinds unit (service_around unfinished_model)
             (PredictionRequest.mk winter_features) start).
  - exact (predict_raises_four_kinds unit
             (interrupted_service keyboard_interrupt)
             (PredictionRequest.mk winter_features) start).
Defined.

(** X12.  When [predict] raises a [PostprocessingError], the preprocessor
    and both calls to the model had returned, the postprocessor was called
    on the model's output and raised, and the details of the error are the
    text of what it raised. *)
Theorem postprocessing_error_after_inference :
  forall (W : Type) (self : PredictionServiceImpl.t W)
         (request : PredictionRequest.t) (s s' : state W) (e : exn),
    PredictionServiceImpl.predict self request s = (Raise e, s') ->
    kind e = PostprocessingError ->
    calls s' = calls s ++ pipeline_order
    /\ exists (x raw : pyval) (v : string) (failed : exn) (w1 w2 w3 : W),
         preprocessor_transform (PredictionServiceImpl._preprocessor self)
           (PredictionRequest.features request) (world s) = (Ok x, w1)
         /\ model_predict (PredictionServiceImpl._model self) x w1
            = (Ok raw, w2)
         /\ model_version (PredictionServiceImpl._model self) w2 = (Ok v, w3)
         /\ postprocessor_transform
              (PredictionServiceImpl._postprocessor self) raw w3
            = (Raise failed, world s')
         /\ details e = Some (str_exn failed).
Proof.
  intros W self request s s' e Hrun Hkind.
  destruct (predict_cases self request s)
    as [(e0 & w1 & _ & H)
       | [(x & e0 & w1 & w2 & _ & _ & H)
         | [(x & raw & e0 & w1 & w2 & w3 & _ & _ & _ & H)
           | [(x & raw & v & e0 & w1 & w2 & w3 & w4 & H1 & H2 & H3 & H4 & H)
             | [(x & raw & v & out & w1 & w2 & w3 & w4 & _ & _ & _ & _ & H)
               | (b & sb & H & _)]]]]];
    rewrite H in Hrun.
  6: discriminate.
  5: destruct (String.eqb v ""); [| discriminate].
  all: injection Hrun as <- <-; simpl in Hkind; try discriminate.
  split; [reflexivity |].
  exists x, raw, v, e0, w1, w2, w3. repeat split; assumption.
Qed.

Lemma postprocessing_error_after_inference_witness :
  calls (mkState tt pipeline_order) = calls start ++ pipeline_order
  /\ exists (x raw : pyval) (v : string) (failed : exn) (w1 w2 w3 : unit),
       preprocessor_transform
         (PredictionServiceImpl._preprocessor (service_around silent_model))
         (PredictionRequest.features (PredictionRequest.mk winter_features))
         (world start) = (Ok x, w1)
       /\ model_predict
            (PredictionServiceImpl._model (service_around silent_model)) x w1
          = (Ok raw, w2)
       /\ model_version
            (PredictionServiceImpl._model (service_around silent_model)) w2
          = (Ok v, w3)
       /\ postprocessor_transform
            (PredictionServiceImpl._postprocessor
               (service_around silent_model)) raw w3
          = (Raise failed, world (mkState tt pipeline_order))
       /\ details
            (PredictionServiceImpl.postprocessing_failed
               (mkExn PostprocessingError
                      "Failed to postprocess model output"
                      (Some "Model output cannot be null")))
          = Some (str_exn failed).
Proof.
  apply (postprocessing_error_after_inference unit
           (service_around silent_model)
           (PredictionRequest.mk winter_features) start).
  - reflexivity.
  - reflexivity.
Defined.



(** ** The controller *)

Lemma request_of_features (features : pydict) :
  features <> [] ->
  PredictionRequest.new features = Ok (PredictionRequest.mk features).
Proof. destruct features; [contradiction | reflexivity]. Qed.

(** [post_predict] on a request with features: the service is called
    once, and its outcome decides. *)
Lemma post_predict_runs_service {W : Type} (self : MCPPredictController.t W)
      (request : PredictionRequestSchema.t) (s : state W) :
  PredictionRequestSchema.features request <> [] ->
  MCPPredictController.post_predict self request s
  = match recorded CallServicePredict
            (MCPPredictController._prediction_service self
               (PredictionRequest.mk
                  (PredictionRequestSchema.features request))) s with
    | (Ok r, s') =>
        match PredictionResponseSchema.new (PredictionResponse.prediction r)
                (PredictionResponse.confidence r)
                (PredictionResponse.model_version r) with
        | Ok response => (Returned response, s')
        | Raise e => (Raised (MCPPredictController.post_predict_except e), s')
        | RaiseBase b => (Escaped b, s')
        end
    | (Raise e, s') =>
        (Raised (MCPPredictController.post_predict_except e), s')
    | (RaiseBase b, s') => (Escaped b, s')
    end.
Proof.
  intros H. unfold MCPPredictController.post_predict,
    MCPPredictController.post_predict_body, bind, lift, ret.
  rewrite (request_of_features _ H).
  destruct (recorded _ _ s) as [[r | e | b] s1]; try reflexivity.
  destruct (PredictionResponseSchema.new _ _ _); reflexivity.
Qed.

Lemma post_predict_except_keys (e : exn) :
  keys (detail (MCPPredictController.post_predict_except e))
  = ["error"; "message"; "details"].
Proof.
  unfold MCPPredictController.post_predict_except, isinstance.
  destruct (kind e); reflexivity.
Qed.

(** X14.  Every [HTTPException] that [post_predict] raises has one of the
    statuses 400, 500, 502 and 503, and a body with exactly the entries
    ["error"], ["message"] and ["details"], in that order. *)
Theorem http_error_shape :
  forall (W : Type) (self : MCPPredictController.t W)
         (request : PredictionRequestSchema.t) (s s' : state W)
         (h : HTTPException),
    MCPPredictController.post_predict self request s = (Raised h, s') ->
    In (status_code h) [400; 500; 502; 503]
    /\ keys (detail h) = ["error"; "message"; "details"].
Proof.
  intros W self request s s' h.
  unfold MCPPredictController.post_predict.
  destruct (MCPPredictController.post_predict_body self request s)
    as [[r | e | b] s1]; try discriminate.
  intros [= <- <-]. split; [| apply post_predict_except_keys].
  rewrite post_predict_except_status.
  destruct (kind e); simpl; tauto.
Qed.

Lemma http_error_shape_witness :
  In (status_code
        (MCPPredictController.post_predict_except
           (PredictionServiceImpl.prediction_failed not_implemented)))
     [400; 500; 502; 503]
  /\ keys (detail
             (MCPPredictController.post_predict_except
                (PredictionServiceImpl.prediction_failed not_implemented)))
     = ["error"; "message"; "details"].
Proof.
  apply (http_error_shape unit
           (controller_of (service_around unfinished_model))
           (PredictionRequestSchema.mk winter_features) start
           (mkState tt [CallServicePredict; CallPreprocessorTransform;
                        CallModelPredict])).
  reflexivity.
Defined.


(** X16.  When the service returns a response whose confidence lies
    between 0.0 and 1.0, [post_predict] returns a schema with the same
    prediction, confidence and model version, and leaves the collaborators
    as the service left them; the service is called on an entity holding
    the features of the request. *)
Theorem controller_returns_service_response :
  forall (W : Type) (self : MCPPredictController.t W)
         (request : PredictionRequestSchema.t) (s s' : state W)
         (r : PredictionResponse.t),
    PredictionRequestSchema.features request <> [] ->
    recorded CallServicePredict
      (MCPPredictController._prediction_service self
         (PredictionRequest.mk (PredictionRequestSchema.features request))) s
    = (Ok r, s') ->
    PyFloat.le PyFloat.f0_0 (PredictionResponse.confidence r) = true ->
    PyFloat.le (PredictionResponse.confidence r) PyFloat.f1_0 = true ->
    MCPPredictController.post_predict self request s
    = (Returned (schema_of r), s').
Proof.
  intros W self request s s' r Hfeat Hrun H0 H1.
  rewrite (post_predict_runs_service self request s Hfeat), Hrun.
  unfold PredictionResponseSchema.new. rewrite H0, H1. reflexivity.
Qed.

Lemma controller_returns_service_response_witness :
  MCPPredictController.post_predict
    (controller_of (service_around forecast_model))
    (PredictionRequestSchema.mk winter_features) start
  = (Returned (schema_of int_forecast_response),
     mkState tt (CallServicePredict :: pipeline_order)).
Proof.
  apply (controller_returns_service_response unit
           (controller_of (service_around forecast_model))
           (PredictionRequestSchema.mk winter_features) start
           (mkState tt (CallServicePredict :: pipeline_order))
           int_forecast_response).
  - discriminate.
  - reflexivity.
  - reflexivity.
  - reflexivity.
Defined.

(** X17.  The controller around the orchestrator, on a request that has
    features: it calls [predict] once; a response of [predict] always
    passes the schema and is returned field by field; an error of
    [predict] is answered with the status of its kind (400, 503, 502 or
    500) and a body that names that kind, never with the body of an
    unexpected error; an exception outside [Exception] that leaves
    [predict] leaves [post_predict] too, with no answer. *)
Theorem controller_around_orchestrator :
  forall (W : Type) (self : PredictionServiceImpl.t W)
         (request : PredictionRequestSchema.t) (s : state W),
    PredictionRequestSchema.features request <> [] ->
    match PredictionServiceImpl.predict self
            (PredictionRequest.mk (PredictionRequestSchema.features request))
            (mkState (world s) (calls s ++ [CallServicePredict])) with
    | (Ok r, s') =>
        MCPPredictController.post_predict (create_controller self) request s
        = (Returned (schema_of r), s')
    | (Raise e, s') =>
        MCPPredictController.post_predict (create_controller self) request s
        = (Raised (mkHTTPException (status_table (kind e))
                     (MCPPredictController._format_error_response e)), s')
        /\ In (kind e, status_table (kind e))
              [(PreprocessingError, 400); (ModelPredictionError, 503);
               (PostprocessingError, 502); (PredictionServiceError, 500)]
    | (RaiseBase b, s') =>
        MCPPredictController.post_predict (create_controller self) request s
        = (Escaped b, s')
    end.
Proof.
  intros W self request s Hfeat.
  rewrite (post_predict_runs_service (create_controller self) request s Hfeat).
  unfold recorded, create_controller. simpl.
  set (s1 := mkState (world s) (calls s ++ [CallServicePredict])).
  destruct (predict_cases self
              (PredictionRequest.mk (PredictionRequestSchema.features request))
              s1)
    as [(e0 & w1 & _ & H)
       | [(x & e0 & w1 & w2 & _ & _ & H)
         | [(x & raw & e0 & w1 & w2 & w3 & _ & _ & _ & H)
           | [(x & raw & v & e0 & w1 & w2 & w3 & w4 & _ & _ & _ & _ & H)
             | [(x & raw & v & out & w1 & w2 & w3 & w4 & _ & _ & _ & _ & H)
               | (b & sb & H & _)]]]]];
    rewrite H.
  6: reflexivity.
  5: destruct (String.eqb v ""); [| reflexivity].
  all: split; [reflexivity | simpl; tauto].
Qed.

Lemma controller_around_orchestrator_witness :
  MCPPredictController.post_predict
    (create_controller (service_around silent_model))
    (PredictionRequestSchema.mk winter_features) start
  = (Raised (mkHTTPException 502
               [("error", PStr "PostprocessingError");
                ("message", PStr "Failed to postprocess model output");
                ("details", PStr "Failed to postprocess model output")]),
     mkState tt (CallServicePredict :: pipeline_order))
  /\ In (PostprocessingError, 502)
        [(PreprocessingError, 400); (ModelPredictionError, 503);
         (PostprocessingError, 502); (PredictionServiceError, 500)].
Proof.
  apply (controller_around_orchestrator unit (service_around silent_model)
           (PredictionRequestSchema.mk winter_features) start).
  discriminate.
Defined.

(** ** The route *)

(** X18.  Before startup has set the controller, the route answers every
    body that has features with status 503 and the body of an unavailable
    service, and calls nothing. *)
Theorem route_before_startup :
  forall (W : Type) (features : pydict) (s : state W),
    features <> [] ->
    predict_route None features s
    = (Handled (Raised (mkHTTPException 503
         [("error", PStr "ServiceUnavailable");
          ("message", PStr "Prediction service not initialized");
          ("details",
           PStr "Server is starting up or encountered initialization error")])),
       s).
Proof.
  intros W features s H. destruct features; [contradiction | reflexivity].
Qed.

Lemma route_before_startup_witness :
  predict_route None winter_features start
  = (Handled (Raised (mkHTTPException 503
       [("error", PStr "ServiceUnavailable");
        ("message", PStr "Prediction service not initialized");
        ("details",
         PStr "Server is starting up or encountered initialization error")])),
     start).
Proof.
  apply (route_before_startup unit winter_features start). discriminate.
Defined.

(** ** The model adapters *)

(** X19.  [predict] of an adapter that has no loaded model, as [__init__]
    leaves it, raises a [ModelPredictionError] with the adapter's fixed
    message whether the model file exists or not; its details are the
    message of the loading error, so the cause of the loading failure is
    not in it, and the [NotImplementedError] of the unfinished inference is
    never reached. *)
Theorem unloaded_adapter_predict :
  forall (torch : TorchModel.t) (sklearn : SklearnModel.t)
         (input_data : pyval) (file_exists : bool),
    TorchModel._loaded_model torch = None ->
    SklearnModel._loaded_model sklearn = None ->
    TorchModel.predict torch input_data file_exists
    = Raise (mkExn ModelPredictionError "PyTorch model prediction failed"
               (Some "Failed to load PyTorch model"))
    /\ SklearnModel.predict sklearn input_data file_exists
       = Raise (mkExn ModelPredictionError
                  "Scikit-learn model prediction failed"
                  (Some "Failed to load scikit-learn model")).
Proof.
  intros torch sklearn input_data file_exists Ht Hs.
  unfold TorchModel.predict, SklearnModel.predict,
    TorchModel._load_model, SklearnModel._load_model, try_except.
  rewrite Ht, Hs. destruct file_exists; split; reflexivity.
Qed.

Lemma unloaded_adapter_predict_witness :
  TorchModel.predict (TorchModel.init same_text "model.pt" "v2.0.0" None)
    PNone true
  = Raise (mkExn ModelPredictionError "PyTorch model prediction failed"
             (Some "Failed to load PyTorch model"))
  /\ SklearnModel.predict (SklearnModel.init same_text "model.pkl" "v1.0.0")
       PNone false
     = Raise (mkExn ModelPredictionError
                "Scikit-learn model prediction failed"
                (Some "Failed to load scikit-learn model")).
Proof.
  split.
  - apply (unloaded_adapter_predict
             (TorchModel.init same_text "model.pt" "v2.0.0" None)
             (SklearnModel.init same_text "model.pkl" "v1.0.0")
             PNone true); reflexivity.
  - apply (unloaded_adapter_predict
             (TorchModel.init same_text "model.pt" "v2.0.0" None)
             (SklearnModel.init same_text "model.pkl" "v1.0.0")
             PNone false); reflexivity.
Defined.

(** ** Configuration *)

(** An adapter that [create_model] returned has no loaded model, so its
    [predict] raises; this does not depend on how the model type was
    lowered. *)
Lemma created_adapter_raises {W : Type} (path_exists : W -> string -> bool)
      (path_text str_lower : string -> string) (settings : Settings.t)
      (a : model_adapter) (x : pyval) (w : W) :
  create_model path_text str_lower settings = Ok a ->
  model_predict (adapter_model path_exists a) x w
  = (Raise (adapter_failure a), w).
Proof.
  unfold create_model.
  destruct (String.eqb (str_lower (Settings.model_type settings)) "torch").
  - intros [= <-]. simpl.
    unfold TorchModel.predict, TorchModel._load_model, try_except. simpl.
    destruct (path_exists w _); reflexivity.
  - destruct (String.eqb (str_lower (Settings.model_type settings)) "sklearn");
      [| discriminate].
    intros [= <-]. simpl.
    unfold SklearnModel.predict, SklearnModel._load_model, try_except. simpl.
    destruct (path_exists w _); reflexivity.
Qed.

(** X21.  The server as [startup] wires it never returns a prediction.
    Whatever the settings with which startup succeeds, whatever the file
    system and whatever [str.lower] makes of the model type, a body that
    has features is answered with status 400 when the default preprocessor
    refuses the features, and otherwise with status 503 and a body naming
    [ModelPredictionError], after calls to the preprocessor and to the
    model's [predict] only; the collaborators are left unchanged. *)
Theorem shipped_service_never_predicts :
  forall (W : Type) (path_exists : W -> string -> bool)
         (path_text str_lower : string -> string) (settings : Settings.t)
         (controller : MCPPredictController.t W)
         (features : pydict) (s : state W),
    startup path_exists path_text str_lower settings = Ok controller ->
    features <> [] ->
    exists (h : HTTPException) (s' : state W),
      predict_route (Some controller) features s = (Handled (Raised h), s')
      /\ world s' = world s
      /\ match DefaultPreprocessor.transform (DefaultPreprocessor.init None)
                 features with
         | Raise _ =>
             status_code h = 400
             /\ calls s'
                = calls s ++ [CallServicePredict; CallPreprocessorTransform]
         | Ok _ =>
             status_code h = 503
             /\ calls s'
                = calls s ++ [CallServicePredict; CallPreprocessorTransform;
                              CallModelPredict]
             /\ Dict.get "error" (detail h)
                = Some (PStr "ModelPredictionError")
             /\ Dict.get "message" (detail h)
                = Some (PStr "Failed to execute model prediction")
         | RaiseBase _ => False
         end.
Proof.
  intros W path_exists path_text str_lower settings controller features s
    Hstart Hfeat.
  unfold startup, create_prediction_service in Hstart.
  destruct (create_model path_text str_lower settings) as [a | e | b] eqn:Ha;
    try discriminate.
  simpl in Hstart. injection Hstart as <-.
  destruct features as [| item features]; [contradiction |].
  unfold predict_route.
  change (PredictionRequestSchema.new (item :: features))
    with (Ok (PredictionRequestSchema.mk (item :: features))).
  cbv iota beta.
  rewrite post_predict_runs_service; [| discriminate].
  unfold recorded, create_controller. simpl.
  set (s1 := mkState (world s) (calls s ++ [CallServicePredict])).
  set (self := PredictionServiceImpl.mk _ _ _).
  destruct (DefaultPreprocessor.transform (DefaultPreprocessor.init None)
              (item :: features)) as [x | e | b] eqn:Hpre.
  3: now apply preprocessor_no_base in Hpre.
  - rewrite (predict_infer_raises self _ s1 x (adapter_failure a)
               (world s) (world s)).
    + eexists. eexists. split; [reflexivity |]. simpl.
      split; [reflexivity |]. rewrite <- app_assoc.
      destruct a; repeat split.
    + simpl. unfold stateless, create_preprocessor. now rewrite Hpre.
    + apply (created_adapter_raises _ path_text str_lower settings). exact Ha.
  - rewrite (predict_pre_raises self _ s1 e (world s)).
    + eexists. eexists. split; [reflexivity |]. simpl.
      split; [reflexivity |]. rewrite <- app_assoc. split; reflexivity.
    + simpl. unfold stateless, create_preprocessor. now rewrite Hpre.
Qed.

Lemma shipped_service_never_predicts_witness :
  exists (h : HTTPException) (s' : state unit),
    predict_route
      (Some (create_controller
               (PredictionServiceImpl.mk
                  (adapter_model no_files
                     (TorchAdapter
                        (TorchModel.init same_text "model.pt" "v2.0.0"
                           (Some "cpu"))))
                  (default_preprocessor (DefaultPreprocessor.init None))
                  (default_postprocessor
                     (DefaultPostprocessor.init (Some "array"))))))
      winter_features start
    = (Handled (Raised h), s')
    /\ world s' = world start
    /\ status_code h = 503
    /\ calls s'
       = calls start ++ [CallServicePredict; CallPreprocessorTransform;
                         CallModelPredict]
    /\ Dict.get "error" (detail h) = Some (PStr "ModelPredictionError")
    /\ Dict.get "message" (detail h)
       = Some (PStr "Failed to execute model prediction").
Proof.
  apply (shipped_service_never_predicts unit no_files same_text lower
           torch_settings _ winter_features start).
  - reflexivity.
  - discriminate.
Defined.

(** ** The entities and the schemas *)

(** X22.  A response entity that was built always passes the schema of
    the response: the range the schema declares for the confidence is the
    one the entity has checked. *)
Theorem entity_passes_schema :
  forall (prediction : pyval) (confidence : PyFloat.float)
         (model_version : string) (r : PredictionResponse.t),
    PredictionResponse.new prediction confidence model_version = Ok r ->
    PredictionResponseSchema.new (PredictionResponse.prediction r)
      (PredictionResponse.confidence r) (PredictionResponse.model_version r)
    = Ok (schema_of r).
Proof.
  intros prediction confidence model_version r.
  unfold PredictionResponse.new, PredictionResponseSchema.new.
  destruct (PyFloat.le PyFloat.f0_0 confidence
            && PyFloat.le confidence PyFloat.f1_0) eqn:E; simpl;
    [| discriminate].
  destruct (String.eqb model_version ""); [discriminate |].
  intros [= <-]. simpl. rewrite E. reflexivity.
Qed.

Lemma entity_passes_schema_witness :
  PredictionResponseSchema.new
    (PredictionResponse.prediction int_forecast_response)
    (PredictionResponse.confidence int_forecast_response)
    (PredictionResponse.model_version int_forecast_response)
  = Ok (schema_of int_forecast_response).
Proof.
  apply (entity_passes_schema
           (PredictionResponse.prediction int_forecast_response)
           PyFloat.f0_8 "v1.0.0").
  reflexivity.
Defined.

(** X23.  A response entity that was built holds the three values it was
    given; its version is not empty and its confidence is a number between
    0.0 and 1.0: a zero or a positive finite float, never a NaN and never
    an infinity. *)
Theorem response_invariant :
  forall (prediction : pyval) (confidence : PyFloat.float)
         (model_version : string) (r : PredictionResponse.t),
    PredictionResponse.new prediction confidence model_version = Ok r ->
    r = PredictionResponse.mk prediction confidence model_version
    /\ model_version <> ""
    /\ PyFloat.le PyFloat.f0_0 confidence = true
    /\ PyFloat.le confidence PyFloat.f1_0 = true
    /\ match confidence with
       | S754_zero _ => True
       | S754_finite negative _ _ => negative = false
       | S754_infinity _ | S754_nan => False
       end.
Proof.
  intros prediction confidence model_version r.
  unfold PredictionResponse.new.
  destruct (PyFloat.le PyFloat.f0_0 confidence) eqn:E0; simpl;
    [| discriminate].
  destruct (PyFloat.le confidence PyFloat.f1_0) eqn:E1; simpl;
    [| discriminate].
  destruct (String.eqb model_version "") eqn:Ev; [discriminate |].
  intros [= <-]. split; [reflexivity |].
  split; [now apply String.eqb_neq |]. split; [reflexivity |].
  split; [reflexivity |].
  destruct confidence as [sz | si | | sf m e]; try exact I.
  - destruct si; discriminate.
  - discriminate.
  - destruct sf; [discriminate | reflexivity].
Qed.

Lemma response_invariant_witness :
  int_forecast_response
  = PredictionResponse.mk
      (PredictionResponse.prediction int_forecast_response)
      PyFloat.f0_8 "v1.0.0"
  /\ "v1.0.0" <> ""
  /\ PyFloat.le PyFloat.f0_0 PyFloat.f0_8 = true
  /\ PyFloat.le PyFloat.f0_8 PyFloat.f1_0 = true
  /\ match PyFloat.f0_8 with
     | S754_zero _ => True
     | S754_finite negative _ _ => negative = false
     | S754_infinity _ | S754_nan => False
     end.
Proof.
  apply (response_invariant
           (PredictionResponse.prediction int_forecast_response)
           PyFloat.f0_8 "v1.0.0" int_forecast_response).
  reflexivity.
Defined.

(** ** The default preprocessor behind the service and the controller *)

Lemma preprocessor_failure_message (p : DefaultPreprocessor.t)
      (features : pydict) (e : exn) :
  DefaultPreprocessor.transform p features = Raise e ->
  str_exn e = "Failed to preprocess input features".
Proof.
  unfold DefaultPreprocessor.transform, try_except.
  match goal with
  | |- match ?body with _ => _ end = _ -> _ =>
      destruct body as [x | e0 | b]
  end; try discriminate.
  intros [= <-]. reflexivity.
Qed.

(** X24.  When the default preprocessor refuses the features of a request,
    the client is answered with status 400 and a body whose details repeat
    the message ["Failed to preprocess input features"]: the cause the
    preprocessor had put in its own details (the missing or null feature,
    the integer out of range) is not in the answer.  Only the preprocessor
    was called. *)
Theorem preprocessing_cause_not_reported :
  forall (W : Type) (model : MLModel W) (postprocessor : Postprocessor W)
         (p : DefaultPreprocessor.t) (request : PredictionRequestSchema.t)
         (s : state W) (e : exn),
    PredictionRequestSchema.features request <> [] ->
    DefaultPreprocessor.transform p (PredictionRequestSchema.features request)
    = Raise e ->
    MCPPredictController.post_predict
      (create_controller
         (PredictionServiceImpl.mk model (default_preprocessor p)
            postprocessor))
      request s
    = (Raised (mkHTTPException 400
                 [("error", PStr "PreprocessingError");
                  ("message", PStr "Failed to preprocess input features");
                  ("details", PStr "Failed to preprocess input features")]),
       mkState (world s)
         (calls s ++ [CallServicePredict; CallPreprocessorTransform])).
Proof.
  intros W model postprocessor p request s e Hfeat Hpre.
  rewrite post_predict_runs_service; [| exact Hfeat].
  unfold recorded, create_controller. simpl.
  rewrite (predict_pre_raises _ _ _ e (world s)).
  - unfold PredictionServiceImpl.preprocessing_failed.
    rewrite (preprocessor_failure_message _ _ _ Hpre). simpl.
    now rewrite <- app_assoc.
  - simpl. unfold stateless. now rewrite Hpre.
Qed.

Lemma preprocessing_cause_not_reported_witness :
  MCPPredictController.post_predict
    (create_controller
       (PredictionServiceImpl.mk forecast_model
          (default_preprocessor (DefaultPreprocessor.init None))
          (default_postprocessor (DefaultPostprocessor.init None))))
    (PredictionRequestSchema.mk seasonal_features) start
  = (Raised (mkHTTPException 400
               [("error", PStr "PreprocessingError");
                ("message", PStr "Failed to preprocess input features");
                ("details", PStr "Failed to preprocess input features")]),
     mkState (world start)
       (calls start ++ [CallServicePredict; CallPreprocessorTransform])).
Proof.
  apply (preprocessing_cause_not_reported unit forecast_model
           (default_postprocessor (DefaultPostprocessor.init None))
           (DefaultPreprocessor.init None)
           (PredictionRequestSchema.mk seasonal_features) start
           missing_product_id).
  - discriminate.
  - reflexivity.
Defined.
